(** * Batch video tagger: shallow embedding of [batch_video_tagger.py]

    The development follows the Python source function by function.  File
    names are byte strings; a directory is a finite map from entry names to
    nodes; the interpreter state that the methods of [BatchVideoTagger]
    read and write (the three directories, the JSON files, the console) is a
    record threaded through a small exception-and-state monad.

    The library calls and the environment are modelled under these
    assumptions, which every statement below inherits:
    - names are ASCII, so that [str.lower] only moves [A]..[Z] (a name with
      a letter such as U+212A, which Python lower-cases to [k], is outside
      the model);
    - the console accepts every message: [print] does not raise (on a
      console that cannot encode a file name or the marks of lines 76, 87
      and 91 it raises [UnicodeEncodeError], also inside a handler);
    - a directory that exists can be listed (an unreadable one makes
      [iterdir] raise at line 35);
    - a move that [shutil.move] refuses leaves the source in place; what it
      leaves at the target (nothing, or the copy its copy-then-unlink
      fallback had made) is a parameter;
    - the success rate is the exact quotient, where Python computes a
      double; only whether the division raises is taken from it. *)

From Stdlib Require Import ZArith QArith Ascii.
From stdpp Require Import gmap strings list sorting.

Local Open Scope Z_scope.

(** ** Python strings *)

Module PyStr.

(** [len(s)] *)
Definition len (s : string) : Z := Z.of_nat (String.length s).

(** [str.lower()], on the ASCII range: [A]..[Z] go to [a]..[z], every
    other byte is kept.  This is [str.lower] for ASCII names only; Python
    also lower-cases letters outside ASCII. *)
Definition lower_char (c : ascii) : ascii :=
  let n := Ascii.N_of_ascii c in
  if ((65 <=? n) && (n <=? 90))%N then Ascii.ascii_of_N (n + 32) else c.

Fixpoint lower (s : string) : string :=
  match s with
  | EmptyString => EmptyString
  | String c s' => String (lower_char c) (lower s')
  end.


(** [s.rfind(c)]: index of the last occurrence of [c], [-1] if none. *)
Fixpoint rfind (c : ascii) (s : string) : Z :=
  match s with
  | EmptyString => -1
  | String a s' =>
      let r := rfind c s' in
      if 0 <=? r then r + 1
      else if Ascii.eqb a c then 0 else -1
  end.

Fixpoint drop (n : nat) (s : string) : string :=
  match n, s with
  | O, _ => s
  | S n', String _ s' => drop n' s'
  | S _, EmptyString => EmptyString
  end.

Fixpoint take (n : nat) (s : string) : string :=
  match n, s with
  | O, _ => EmptyString
  | S n', String a s' => String a (take n' s')
  | S _, EmptyString => EmptyString
  end.

(** [s[i:]] and [s[:i]] for a non-negative index [i]. *)
Definition slice_from (i : Z) (s : string) : string := drop (Z.to_nat i) s.
Definition slice_to (i : Z) (s : string) : string := take (Z.to_nat i) s.

End PyStr.

(** ** pathlib: the final path component *)

Module Pathlib.
Import PyStr.

(** [PurePath.suffix], as in CPython up to 3.13:
    [i = name.rfind('.')], then [name[i:]] when [0 < i < len(name) - 1],
    else the empty string. *)
Definition suffix (name : string) : string :=
  let i := rfind "."%char name in
  if (0 <? i) && (i <? len name - 1) then slice_from i name else "".

(** [PurePath.stem]: [name[:i]] under the same test, else [name]. *)
Definition stem (name : string) : string :=
  let i := rfind "."%char name in
  if (0 <? i) && (i <? len name - 1) then slice_to i name else name.

(** One element of an [fnmatch] pattern: the source only uses literal
    characters and [*]. *)
Inductive tok := Lit (c : ascii) | Star.

(** [fnmatch] of a whole name against a pattern (case-sensitive, as on
    POSIX; [*] matches any run of characters, also the empty one, and a
    leading dot is not special for [Path.glob]). *)
Fixpoint fnmatch (pat : list tok) (s : string) {struct pat} : bool :=
  match pat with
  | [] => bool_decide (s = "")
  | Lit c :: pat' =>
      match s with
      | String a s' => Ascii.eqb a c && fnmatch pat' s'
      | EmptyString => false
      end
  | Star :: pat' =>
      (fix any (s : string) : bool :=
         fnmatch pat' s ||
         match s with
         | String _ s' => any s'
         | EmptyString => false
         end) s
  end.

Fixpoint lits (s : string) : list tok :=
  match s with
  | EmptyString => []
  | String c s' => Lit c :: lits s'
  end.

End Pathlib.

(** ** The file system and the interpreter state *)

(** An entry of the input directory: a regular file with its bytes, or a
    sub-directory with its own entries. [Path.is_file()] tells them apart. *)
#[warnings="-register-all"]
Inductive node :=
  | File (content : string)
  | Folder (children : gmap string node).

Definition is_file (n : node) : bool :=
  match n with File _ => true | Folder _ => false end.

(** The metadata template file: [json.load] either fails or yields the
    top-level object, an insertion-ordered mapping of string keys to string
    values. *)
Definition pydict (V : Type) : Type := list (string * V).

(** [d[k]] (as [d.get(k)]), [k in d] and [d[k] = v]: an assignment to a key
    already present keeps its position, a new key goes last. *)
Fixpoint dict_get {V} (k : string) (d : pydict V) : option V :=
  match d with
  | [] => None
  | (k', v') :: d' => if decide (k' = k) then Some v' else dict_get k d'
  end.

Definition dict_has {V} (k : string) (d : pydict V) : bool :=
  bool_decide (is_Some (dict_get k d)).

Fixpoint dict_set {V} (k : string) (v : V) (d : pydict V) : pydict V :=
  match d with
  | [] => [(k, v)]
  | (k', v') :: d' =>
      if decide (k' = k) then (k, v) :: d' else (k', v') :: dict_set k v d'
  end.

Inductive json_file :=
  | Malformed
  | JsonObject (template : pydict string).

(** What the program prints, one constructor per message that carries
    information. *)
Inductive event :=
  | EvProcessing (name : string)
  | EvMetadataNotFound (metadata_file : string)
  | EvAddingMetadata (output_filename : string)
  | EvSuccess (name : string)
  | EvFailed (name : string)
  | EvError (name : string)
  | EvNoVideoFiles
  | EvFound (names : list string)
  | EvMetadataAdded (metadata : pydict string)
  | EvSummary (total successful failed : nat)
  | EvSuccessRate (percent : Q)
  | EvFailedVideo (name : string)
  | EvInputStatus (count : nat) (names : list string)
  | EvProcessedStatus (count : nat) (preview : list string) (more : option nat)
  | EvOutputStatus (count : nat) (preview : list string) (more : option nat).

(** The three directories of a [BatchVideoTagger] ([None]: the path does not
    exist), the JSON files by path, and the console.  Processed and Output
    are written by this program only, with regular files: they map a file
    name to its bytes. *)
Record world := World {
  input_dir : option (gmap string node);
  processed_dir : option (gmap string string);
  output_dir : option (gmap string string);
  json_files : gmap string json_file;
  console : list event;
}.

(** The part of the state that lives on disk. *)
Definition disk (w : world) :
  option (gmap string node) * option (gmap string string) *
  option (gmap string string) * gmap string json_file :=
  (input_dir w, processed_dir w, output_dir w, json_files w).

(** ** Exceptions and the state monad *)

Inductive exn :=
  | FileNotFoundError
  | JSONDecodeError
  | ZeroDivisionError
  | OSError
  | TaggerError.

Inductive result (A : Type) :=
  | Return (a : A)
  | Raise (e : exn).
Arguments Return {A} a.
Arguments Raise {A} e.

Definition Py (A : Type) : Type := world → result A * world.

Definition ret {A} (a : A) : Py A := λ w, (Return a, w).
Definition raise {A} (e : exn) : Py A := λ w, (Raise e, w).
Definition bind {A B} (m : Py A) (k : A → Py B) : Py B :=
  λ w, match m w with
       | (Return a, w') => k a w'
       | (Raise e, w') => (Raise e, w')
       end.
(** [try: body except Exception: handler] *)
Definition try_except {A} (body : Py A) (handler : exn → Py A) : Py A :=
  λ w, match body w with
       | (Return a, w') => (Return a, w')
       | (Raise e, w') => handler e w'
       end.

Global Instance Py_ret : MRet Py := @ret.
Global Instance Py_bind : MBind Py := λ A B k m, bind m k.

(** [print(...)] on a console that accepts the message: the model has no
    [UnicodeEncodeError]. *)
Definition print (e : event) : Py unit :=
  λ w, (Return (),
        World (input_dir w) (processed_dir w) (output_dir w) (json_files w)
              (console w ++ [e])).

(** ** File discovery *)

(** [{'.mp4', '.avi', '.mov', '.mkv', '.wmv', '.flv', '.webm', '.m4v'}] *)
Definition video_extensions : gset string :=
  {[ ".mp4"; ".avi"; ".mov"; ".mkv"; ".wmv"; ".flv"; ".webm"; ".m4v" ]}.

(** [self.input_dir.iterdir()]: the immediate entries, in whatever order the
    system yields them; a missing directory raises.  A directory that exists
    is taken to be readable. *)
Definition iterdir_input : Py (list (string * node)) :=
  λ w, match input_dir w with
       | Some d => (Return (map_to_list d), w)
       | None => (Raise FileNotFoundError, w)
       end.

(** The test of the loop body of [get_video_files]. *)
Definition is_video (entry : string * node) : bool :=
  is_file entry.2 &&
  bool_decide (PyStr.lower (Pathlib.suffix entry.1) ∈ video_extensions).

(** [sorted(video_files)]: the paths share their parent, so they are ordered
    by their final component, byte by byte. *)
Definition sorted (names : list string) : list string :=
  merge_sort String.le names.

Definition get_video_files : Py (list string) :=
  entries ← iterdir_input;
  mret (sorted (filter is_video entries).*1).

(** ** Processing one video, and the batch *)

(** What the external tag applicator does with one file: it writes the tagged
    artefact and reports success, or it reports failure, or it raises; in the
    last two cases it may leave bytes at the target path. *)
Inductive tag_result :=
  | Tagged (artifact : string)
  | Rejected (leftover : option string)
  | Crashed (leftover : option string).

Definition written (r : tag_result) : option string :=
  match r with
  | Tagged a => Some a
  | Rejected l | Crashed l => l
  end.

Definition set_disk (i : option (gmap string node))
    (p o : option (gmap string string)) (w : world) : world :=
  World i p o (json_files w) (console w).

Section batch_video_tagger.

(** The media tool behind [SimpleVideoTagger.write_metadata], by source
    file name, source bytes and metadata. *)
Variable applicator : string → string → pydict string → tag_result.

(** Whether the operating system refuses to move a given file
    (permissions, a read-only target and the like). *)
Variable move_denied : string → bool.

(** What a refused move leaves in Processed under the file's name: nothing
    when the rename itself was refused, the bytes copied when the
    copy-then-unlink fallback of [shutil.move] failed after copying. *)
Variable move_leftover : string → option string.

(** The title [SimpleVideoTagger] derives from a base name. *)
Variable derive_title : string → string.

(** Modelled from the spec: [SimpleVideoTagger.load_metadata_with_auto_title]
    ([simple_video_tagger.py] is not among the sources).  It starts from a
    copy of the template and, if the copy has no [title] entry, inserts the
    title derived from the base name. *)
Definition load_metadata_with_auto_title
    (base_name : string) (template : pydict string) : pydict string :=
  let metadata := template in
  if dict_has "title" metadata then metadata
  else dict_set "title" (derive_title base_name) metadata.

(** Modelled from the spec: the constructor [SimpleVideoTagger(video_path)],
    after its sibling [VideoTagger.__init__]: it raises when the path does
    not exist, and otherwise holds on to the entry. *)
Definition SimpleVideoTagger (name : string) : Py node :=
  λ w, match input_dir w ≫= (.!! name) with
       | Some n => (Return n, w)
       | None => (Raise FileNotFoundError, w)
       end.

(** Modelled from the spec: [SimpleVideoTagger.write_metadata], the call
    [applyTags(sourcePath, metadata)] that yields a new artefact at the
    target path or fails.  Nothing can be written below a directory that
    does not exist, and a directory is not a media file. *)
Definition write_metadata (name : string) (tagger : node)
    (metadata : pydict string) (output_filename : string) : Py bool :=
  λ w, match tagger, output_dir w with
       | File content, Some out =>
           let r := applicator name content metadata in
           let out' := match written r with
                       | Some a => <[output_filename := a]> out
                       | None => out
                       end in
           let w' := set_disk (input_dir w) (processed_dir w) (Some out') w in
           match r with
           | Tagged _ => (Return true, w')
           | Rejected _ => (Return false, w')
           | Crashed _ => (Raise TaggerError, w')
           end
       | _, _ => (Return false, w)
       end.

(** [metadata_path.exists()] *)
Definition path_exists (path : string) : Py bool :=
  λ w, (Return (bool_decide (is_Some (json_files w !! path))), w).

(** [json.load(open(metadata_path))] *)
Definition json_load (path : string) : Py (pydict string) :=
  λ w, match json_files w !! path with
       | Some (JsonObject template) => (Return template, w)
       | Some Malformed => (Raise JSONDecodeError, w)
       | None => (Raise FileNotFoundError, w)
       end.

(** [shutil.move(video_path, processed_dir / video_path.name)]: the file
    leaves Input and lands in Processed under its own name, replacing a
    file of that name; it raises, changing nothing, when the source or
    the target directory is missing.  When the system refuses, it raises
    with the source still in Input and with [move_leftover] at the target.
    (A directory never gets here: [write_metadata] has rejected it.) *)
Definition shutil_move (name : string) : Py unit :=
  λ w, match input_dir w, processed_dir w with
       | Some inp, Some proc =>
           match inp !! name with
           | Some (File content) =>
               if move_denied name then
                 (Raise OSError,
                  match move_leftover name with
                  | Some copied =>
                      set_disk (input_dir w) (Some (<[name := copied]> proc))
                               (output_dir w) w
                  | None => w
                  end)
               else (Return (),
                     set_disk (Some (delete name inp))
                              (Some (<[name := content]> proc))
                              (output_dir w) w)
           | Some (Folder _) => (Raise OSError, w)
           | None => (Raise FileNotFoundError, w)
           end
       | _, _ => (Raise FileNotFoundError, w)
       end.

(** [f"{video_path.stem}_tagged{video_path.suffix}"] *)
Definition tagged_name (name : string) : string :=
  Pathlib.stem name +:+ "_tagged" +:+ Pathlib.suffix name.

Definition process_single_video (name metadata_file : string) : Py bool :=
  try_except
    (print (EvProcessing name);;
     tagger ← SimpleVideoTagger name;
     found ← path_exists metadata_file;
     if negb found then
       print (EvMetadataNotFound metadata_file);;
       mret false
     else
       template ← json_load metadata_file;
       let metadata :=
         load_metadata_with_auto_title (Pathlib.stem name) template in
       let output_filename := tagged_name name in
       print (EvAddingMetadata output_filename);;
       success ← write_metadata name tagger metadata output_filename;
       if success : bool then
         shutil_move name;;
         print (EvSuccess name);;
         print (EvMetadataAdded metadata);;
         mret true
       else
         print (EvFailed name);;
         mret false)
    (λ _, print (EvError name);; mret false).

(** [successful / len(video_files)]: true division raises on a zero
    divisor.  The quotient is kept exact, where Python rounds to a double:
    the value stands for the rate only up to that rounding. *)
Definition truediv (a b : nat) : Py Q :=
  if decide (b = 0%nat) then raise ZeroDivisionError
  else mret (Z.of_nat a # Pos.of_nat b)%Q.

(** The loop of [process_all_videos] over its three accumulators. *)
Fixpoint process_loop (video_files : list string) (metadata_file : string)
    (results : pydict bool) (successful failed : nat)
    : Py (pydict bool * nat * nat) :=
  match video_files with
  | [] => mret (results, successful, failed)
  | video_file :: rest =>
      success ← process_single_video video_file metadata_file;
      let results := dict_set video_file success results in
      if success : bool
      then process_loop rest metadata_file results (S successful) failed
      else process_loop rest metadata_file results successful (S failed)
  end.

(** [for video_name, success in results.items(): if not success: print] *)
Fixpoint print_failed (results : pydict bool) : Py unit :=
  match results with
  | [] => mret ()
  | (video_name, success) :: rest =>
      (if success then mret () else print (EvFailedVideo video_name));;
      print_failed rest
  end.

Definition process_all_videos (metadata_file : string) : Py (pydict bool) :=
  video_files ← get_video_files;
  if bool_decide (video_files = []) then
    print EvNoVideoFiles;;
    mret []
  else
    print (EvFound video_files);;
    '(results, successful, failed) ←
      process_loop video_files metadata_file [] 0%nat 0%nat;
    print (EvSummary (length video_files) successful failed);;
    rate ← truediv successful (length video_files);
    print (EvSuccessRate (rate * 100)%Q);;
    (if decide (0 < failed)%nat then print_failed results else mret ());;
    mret results.

(** ** The status report *)

(** [list(dir.glob(pattern))]: names of the entries that match, in listing
    order; a directory that does not exist yields nothing. *)
Definition glob (dir : option (gmap string string)) (pattern : list Pathlib.tok)
    : list string :=
  match dir with
  | Some d => filter (λ name, Pathlib.fnmatch pattern name) (map_to_list d).*1
  | None => []
  end.

Definition star (ext : string) : list Pathlib.tok :=
  Pathlib.Star :: Pathlib.lits ext.

(** The expression of line 149. *)
Definition processed_files (w : world) : list string :=
  glob (processed_dir w) (star ".mp4") ++
  glob (processed_dir w) (star ".avi") ++
  glob (processed_dir w) (star ".mov").

(** [glob("*_tagged.*")] *)
Definition output_files (w : world) : list string :=
  glob (output_dir w) (star "_tagged." ++ [Pathlib.Star]).

(** ["... and N more"], printed when the list is longer than the preview. *)
Definition more (files : list string) : option nat :=
  if decide (5 < length files)%nat then Some (length files - 5)%nat else None.

Definition show_directory_status : Py unit :=
  input_videos ← get_video_files;
  print (EvInputStatus (length input_videos) input_videos);;
  files ← (λ w, (Return (processed_files w), w));
  print (EvProcessedStatus (length files) (take 5 files) (more files));;
  files ← (λ w, (Return (output_files w), w));
  print (EvOutputStatus (length files) (take 5 files) (more files)).

(** [BatchVideoTagger.__init__]: [mkdir(exist_ok=True)] on each of the three
    paths. *)
Definition mkdir {A} (dir : option (gmap string A)) : option (gmap string A) :=
  match dir with Some d => Some d | None => Some ∅ end.

Definition init : Py unit :=
  λ w, (Return (),
        set_disk (mkdir (input_dir w)) (mkdir (processed_dir w))
                 (mkdir (output_dir w)) w).

End batch_video_tagger.

(** ** Observations on a state *)

(** What a directory holds under a name; nothing when the directory does not
    exist. *)
Definition input_at (w : world) (name : string) : option node :=
  input_dir w ≫= (.!! name).
Definition processed_at (w : world) (name : string) : option string :=
  processed_dir w ≫= (.!! name).
Definition output_at (w : world) (name : string) : option string :=
  output_dir w ≫= (.!! name).

(** The items whose processing was started, in order, read off the console. *)
Definition attempts (log : list event) : list string :=
  omap (λ e, match e with EvProcessing name => Some name | _ => None end) log.

(** The reports that a metadata template could not be loaded. *)
Definition load_errors (log : list event) : list event :=
  omap (λ e, match e with
             | EvMetadataNotFound _ | EvError _ => Some e
             | _ => None
             end) log.

(** The list [get_video_files] returns on an input directory [d]. *)
Definition video_files_of (d : gmap string node) : list string :=
  sorted (filter is_video (map_to_list d)).*1.

(** Which of the three directories exist. *)
Definition exists_dirs (w : world) : bool * bool * bool :=
  (bool_decide (is_Some (input_dir w)),
   bool_decide (is_Some (processed_dir w)),
   bool_decide (is_Some (output_dir w))).

(** The conditions under which [process_single_video] reaches its
    [return True], read off its branches: the source is a regular file, the
    template loads, both target directories exist, the applicator delivers
    and the move is not refused. *)
Definition will_succeed
    (applicator : string → string → pydict string → tag_result)
    (move_denied : string → bool) (derive_title : string → string)
    (name metadata_file : string) (w : world) : bool :=
  match input_at w name, json_files w !! metadata_file,
        processed_dir w, output_dir w with
  | Some (File content), Some (JsonObject template), Some _, Some _ =>
      match applicator name content
              (load_metadata_with_auto_title derive_title
                 (Pathlib.stem name) template) with
      | Tagged _ => negb (move_denied name)
      | _ => false
      end
  | _, _, _, _ => false
  end.

(** ** A small installation *)

Module Example.

(** Input holds two videos, a text file, an upper-case video and a
    sub-directory that itself holds a video. *)
Definition input : gmap string node :=
  {[ "b.mov" := File "B"; "a.mp4" := File "A"; "notes.txt" := File "N";
     "c.MKV" := File "C";
     "clips.mp4" := Folder {[ "x.mp4" := File "X" ]} ]}.

Definition template : pydict string := [("artist", "X")].

Definition start : world :=
  World (Some input) (Some ∅) (Some ∅)
        {[ "sample_metadata.json" := JsonObject template ]} [].

(** The same installation without its metadata template. *)
Definition no_template : world :=
  World (Some input) (Some ∅) (Some ∅) ∅ [].

(** Input was removed after the tagger had been constructed. *)
Definition no_input : world :=
  World None (Some ∅) (Some ∅) ∅ [].

(** Input holds a text file only. *)
Definition idle : world :=
  World (Some {[ "notes.txt" := File "N" ]}) (Some ∅) (Some ∅) ∅ [].

(** Processed as left by earlier runs. *)
Definition archive : world :=
  World (Some ∅)
        (Some {[ "a.mp4" := "A"; "c.MKV" := "C"; "d.webm" := "D" ]})
        (Some {[ "a_tagged.mp4" := "A+" ]}) ∅ [].

(** An applicator that fails on [b.mov] and tags everything else. *)
Definition tagger (name content : string) (metadata : pydict string)
    : tag_result :=
  if decide (name = "b.mov") then Rejected None else Tagged (content +:+ "+").

Definition never_denied (name : string) : bool := false.

Definition nothing_left (name : string) : option string := None.

(** A system on which the move of [c.MKV] is refused after the copy has
    been made. *)
Definition refuses_c (name : string) : bool := bool_decide (name = "c.MKV").

Definition copy_of_c (name : string) : option string :=
  if decide (name = "c.MKV") then Some "C" else None.

(** The installation with the files of an earlier run in Output. *)
Definition stocked : world :=
  World (Some input) (Some ∅)
        (Some {[ "readme.txt" := "R"; "z_tagged.mp4" := "Z+" ]})
        {[ "sample_metadata.json" := JsonObject template ]} [].

Definition title_of (base_name : string) : string := "Video " +:+ base_name.

(** One batch run with the default template path. *)
Definition run : Py (pydict bool) :=
  process_all_videos tagger never_denied nothing_left title_of
    "sample_metadata.json".

End Example.

(** ** The command line *)

(** The parsed arguments [main] looks at; [--input], [--processed] and
    [--output] name the three directories of the state. *)
Record args := Args {
  process_all : bool;
  status : bool;
  metadata : string;
}.

(** The defaults of the parser. *)
Definition default_args : args := Args false false "sample_metadata.json".

(** For each of the three paths, whether something other than a directory
    is in the way of creating it (a regular file of that name, a missing
    parent). *)
Record obstacles := Obstacles {
  input_blocked : bool;
  processed_blocked : bool;
  output_blocked : bool;
}.

(** [path.mkdir(exist_ok=True)]: an existing directory is kept, a missing one
    is created empty, unless the path is blocked, which raises. *)
Definition mkdir_exist_ok {A} (blocked : bool) (dir : option (gmap string A))
    : result (option (gmap string A)) :=
  match dir with
  | Some d => Return (Some d)
  | None => if blocked then Raise OSError else Return (Some ∅)
  end.

(** [BatchVideoTagger.__init__], lines 20-28: the three [mkdir] calls in
    order; what was created before a failing call stays. *)
Definition BatchVideoTagger (ob : obstacles) : Py unit :=
  λ w, match mkdir_exist_ok (input_blocked ob) (input_dir w) with
       | Raise e => (Raise e, w)
       | Return i =>
           match mkdir_exist_ok (processed_blocked ob) (processed_dir w) with
           | Raise e => (Raise e, set_disk i (processed_dir w) (output_dir w) w)
           | Return p =>
               match mkdir_exist_ok (output_blocked ob) (output_dir w) with
               | Raise e => (Raise e, set_disk i p (output_dir w) w)
               | Return o => (Return (), set_disk i p o w)
               end
           end
       end.

(** How [main] ends: normally (exit code 0), having printed the hint
    ["Use --process-all to start processing videos"] or not; or through its
    handler, which prints the error and calls [sys.exit(1)]. *)
Inductive ending :=
  | Finished (hint : bool)
  | Failed (error : exn).

Definition exit_code (e : ending) : Z :=
  match e with Finished _ => 0 | Failed _ => 1 end.

Section command_line.

Variable applicator : string → string → pydict string → tag_result.
Variable move_denied : string → bool.
Variable move_leftover : string → option string.
Variable derive_title : string → string.

(** [main], lines 193-207, on parsed arguments. *)
Definition main (ob : obstacles) (a : args) : world → ending * world :=
  λ w, match (BatchVideoTagger ob;;
              if status a then
                show_directory_status;; mret false
              else if process_all a then
                process_all_videos applicator move_denied move_leftover
                  derive_title (metadata a);;
                mret false
              else
                show_directory_status;; mret true) w with
       | (Return hint, w') => (Finished hint, w')
       | (Raise e, w') => (Failed e, w')
       end.

End command_line.

(** The names printed under ["Failed videos:"], read off the console. *)
Definition failed_listed (log : list event) : list string :=
  omap (λ e, match e with EvFailedVideo name => Some name | _ => None end) log.

(** The run summaries printed, read off the console: total, successful,
    failed and success rate in percent. *)
Definition summaries (log : list event) : list (nat * nat * nat) :=
  omap (λ e, match e with
             | EvSummary total successful failed =>
                 Some (total, successful, failed)
             | _ => None
             end) log.

Definition success_rates (log : list event) : list Q :=
  omap (λ e, match e with EvSuccessRate r => Some r | _ => None end) log.

(** The entries of a result mapping with a given outcome, as names. *)
Definition names_with (b : bool) (results : list (string * bool))
    : list string :=
  (filter (λ p : string * bool, p.2 = b) results).*1.

(** * Properties *)

(** ** Discovery *)

Lemma get_video_files_some w d :
  input_dir w = Some d → get_video_files w = (Return (video_files_of d), w).
Proof.
  intros Hd. unfold get_video_files, mbind, Py_bind, bind, iterdir_input.
  by rewrite Hd.
Qed.

Lemma get_video_files_none w :
  input_dir w = None → get_video_files w = (Raise FileNotFoundError, w).
Proof.
  intros Hd. unfold get_video_files, mbind, Py_bind, bind, iterdir_input.
  by rewrite Hd.
Qed.

Lemma video_files_of_perm d :
  video_files_of d ≡ₚ (filter is_video (map_to_list d)).*1.
Proof. apply merge_sort_Permutation. Qed.

Lemma elem_of_video_files_of d name :
  name ∈ video_files_of d ↔
    (∃ content, d !! name = Some (File content)) ∧
    PyStr.lower (Pathlib.suffix name) ∈ video_extensions.
Proof.
  rewrite video_files_of_perm, list_elem_of_fmap. split.
  - intros [[n x] [-> [Hv Hin]%list_elem_of_filter]].
    apply elem_of_map_to_list in Hin. unfold is_video in Hv. simpl in *.
    apply andb_prop_elim in Hv as [Hf Hext].
    apply bool_decide_unpack in Hext.
    destruct x as [c|]; [|done]. eauto.
  - intros [[c Hc] Hext]. exists (name, File c). split; [done|].
    apply list_elem_of_filter. split; [|by apply elem_of_map_to_list].
    unfold is_video. simpl. by apply bool_decide_pack.
Qed.

Lemma NoDup_video_files_of d : NoDup (video_files_of d).
Proof.
  rewrite video_files_of_perm.
  assert (Hsub : sublist (filter is_video (map_to_list d)).*1 (map_to_list d).*1).
  { apply fmap_sublist, sublist_filter. }
  exact (sublist_NoDup _ _ (NoDup_fst_map_to_list d) Hsub).
Qed.

Lemma sorted_video_files_of d : StronglySorted String.le (video_files_of d).
Proof. apply StronglySorted_merge_sort; apply _. Qed.

Lemma video_suffix_nonempty d name :
  name ∈ video_files_of d → Pathlib.suffix name ≠ "".
Proof.
  intros [_ Hext]%elem_of_video_files_of Hs. rewrite Hs in Hext.
  by vm_compute in Hext.
Qed.

(** C4. On every existing input directory, discovery returns without error
    the names of exactly the immediate entries that are regular files with a
    suffix that, lower-cased, is one of the eight recognised extensions; the
    result is sorted by name without repetition, and it is the empty list
    when no entry qualifies. *)
Theorem get_video_files_spec (w : world) (d : gmap string node) :
  input_dir w = Some d →
  ∃ video_files,
    get_video_files w = (Return video_files, w) ∧
    StronglySorted String.le video_files ∧
    NoDup video_files ∧
    (∀ name, name ∈ video_files ↔
       (∃ content, d !! name = Some (File content)) ∧
       PyStr.lower (Pathlib.suffix name) ∈
         ({[ ".mp4"; ".avi"; ".mov"; ".mkv"; ".wmv"; ".flv"; ".webm"; ".m4v" ]}
            : gset string)) ∧
    ((∀ name content, d !! name = Some (File content) →
        PyStr.lower (Pathlib.suffix name) ∉ video_extensions) →
     video_files = []).
Proof.
  intros Hd. exists (video_files_of d). split_and!.
  - by apply get_video_files_some.
  - apply sorted_video_files_of.
  - apply NoDup_video_files_of.
  - apply elem_of_video_files_of.
  - intros Hnone. apply elem_of_nil_inv. intros name Hin.
    apply elem_of_video_files_of in Hin as [[c Hc] Hext].
    by apply (Hnone name c).
Qed.

(** ** Names, suffixes and patterns *)

Lemma append_nil_l s : "" +:+ s = s.
Proof. reflexivity. Qed.

Lemma append_cons a s t : String a s +:+ t = String a (s +:+ t).
Proof. reflexivity. Qed.

Lemma fnmatch_lits ext s : Pathlib.fnmatch (Pathlib.lits ext) s = true ↔ s = ext.
Proof.
  revert s. induction ext as [|c ext IH]; intros s; simpl.
  - by rewrite bool_decide_eq_true.
  - destruct s as [|a s]; [done|].
    rewrite andb_true_iff, IH, Ascii.eqb_eq. split; [by intros [-> ->]|].
    by intros [= -> ->].
Qed.

(** A name matches [*ext] exactly when it ends with [ext]. *)
Lemma fnmatch_star ext s :
  Pathlib.fnmatch (Pathlib.Star :: Pathlib.lits ext) s = true ↔
  ∃ pre, s = pre +:+ ext.
Proof.
  simpl. induction s as [|a s IH].
  - rewrite orb_false_r, fnmatch_lits. split.
    + intros <-. by exists "".
    + intros [[|b pre] Hpre]; [done|]. by rewrite append_cons in Hpre.
  - rewrite orb_true_iff, fnmatch_lits, IH. split.
    + intros [<-|[pre ->]]; [by exists ""|]. by exists (String a pre).
    + intros [[|b pre] Hpre]; [by left|]. right.
      rewrite append_cons in Hpre. injection Hpre as -> ->. by exists pre.
Qed.

Lemma rfind_append c pre rest :
  PyStr.rfind c rest = -1 →
  PyStr.rfind c (pre +:+ String c rest) = PyStr.len pre.
Proof.
  intros Hrest. unfold PyStr.len.
  induction pre as [|a pre IH].
  - rewrite append_nil_l. simpl. rewrite Hrest. simpl.
    by rewrite Ascii.eqb_refl.
  - rewrite append_cons. cbn [PyStr.rfind String.length]. rewrite IH.
    destruct (Z.leb_spec 0 (Z.of_nat (String.length pre))); lia.
Qed.

Lemma len_append s t : PyStr.len (s +:+ t) = PyStr.len s + PyStr.len t.
Proof.
  unfold PyStr.len. induction s as [|a s IH]; [by rewrite append_nil_l|].
  rewrite append_cons. cbn [String.length]. lia.
Qed.

Lemma drop_append pre s : PyStr.drop (String.length pre) (pre +:+ s) = s.
Proof. induction pre as [|a pre IH]; [by destruct s|done]. Qed.

Lemma take_append pre s : PyStr.take (String.length pre) (pre +:+ s) = pre.
Proof.
  induction pre as [|a pre IH]; [done|].
  rewrite append_cons. cbn. by rewrite IH.
Qed.

Lemma append_assoc s t u : (s +:+ t) +:+ u = s +:+ (t +:+ u).
Proof.
  induction s as [|a s IH]; [done|]. rewrite !append_cons. by rewrite IH.
Qed.

(** Strings that agree after prefixes of the same length agree on the
    prefixes and on the rest. *)
Lemma append_inj_len s1 s2 t1 t2 :
  PyStr.len s1 = PyStr.len s2 → s1 +:+ t1 = s2 +:+ t2 → s1 = s2 ∧ t1 = t2.
Proof.
  unfold PyStr.len. revert s2.
  induction s1 as [|a s1 IH]; intros [|b s2] Hlen Heq;
    cbn [String.length] in Hlen; try lia.
  - done.
  - rewrite !append_cons in Heq. injection Heq as -> Heq.
    destruct (IH s2) as [-> ->]; [lia|done|done].
Qed.

Lemma rfind_ge c s : -1 <= PyStr.rfind c s.
Proof.
  induction s as [|a s IH]; cbn [PyStr.rfind]; [lia|].
  destruct (Z.leb_spec 0 (PyStr.rfind c s)); [lia|].
  destruct (Ascii.eqb a c); lia.
Qed.

(** Where [rfind] finds a character, the string splits there and the rest
    is free of it. *)
Lemma rfind_split c s :
  0 <= PyStr.rfind c s →
  ∃ pre e, s = pre +:+ String c e ∧ PyStr.rfind c e = -1 ∧
           PyStr.rfind c s = PyStr.len pre.
Proof.
  induction s as [|a s IH]; cbn [PyStr.rfind]; [lia|].
  destruct (Z.leb_spec 0 (PyStr.rfind c s)) as [Hr|Hr].
  - intros _. destruct (IH Hr) as (pre & e & -> & He & Hlen).
    exists (String a pre), e. split_and!; [done..|].
    rewrite Hlen. unfold PyStr.len. cbn [String.length]. lia.
  - destruct (Ascii.eqb_spec a c) as [->|]; [|lia]. intros _.
    exists "", s. split_and!; [done| |done].
    pose proof (rfind_ge c s). lia.
Qed.

(** The suffix and the stem of [pre.ext] for a non-empty [pre] and a
    non-empty, dot-free [ext]. *)
Lemma suffix_stem_append pre a ext :
  pre ≠ "" → PyStr.rfind "." (String a ext) = -1 →
  Pathlib.suffix (pre +:+ String "." (String a ext)) = String "." (String a ext) ∧
  Pathlib.stem (pre +:+ String "." (String a ext)) = pre.
Proof.
  intros Hpre Hext. unfold Pathlib.suffix, Pathlib.stem.
  rewrite rfind_append, len_append by done.
  assert (0 < PyStr.len pre).
  { unfold PyStr.len. destruct pre; [done|]. cbn [String.length]. lia. }
  assert (0 <= PyStr.len ext) by (unfold PyStr.len; lia).
  replace (PyStr.len (String "." (String a ext))) with (2 + PyStr.len ext)
    by (unfold PyStr.len; cbn [String.length]; lia).
  destruct (Z.ltb_spec 0 (PyStr.len pre)); [|lia].
  destruct (Z.ltb_spec (PyStr.len pre) (PyStr.len pre + (2 + PyStr.len ext) - 1));
    [|lia].
  cbn [andb]. unfold PyStr.slice_from, PyStr.slice_to, PyStr.len.
  rewrite Nat2Z.id. by rewrite drop_append, take_append.
Qed.

(** A name that ends with a dot-free extension has that extension as its
    suffix, unless the name is the bare extension. *)
Lemma suffix_of_match a ext s :
  PyStr.rfind "." (String a ext) = -1 →
  (∃ pre, s = pre +:+ String "." (String a ext)) →
  Pathlib.suffix s = String "." (String a ext) ∨ Pathlib.suffix s = "".
Proof.
  intros Hext [pre ->]. destruct (decide (pre = "")) as [->|Hpre].
  - right. rewrite append_nil_l. unfold Pathlib.suffix.
    pose proof (rfind_append "." "" _ Hext) as H0.
    rewrite append_nil_l in H0. by rewrite H0.
  - left. by apply suffix_stem_append.
Qed.

(** Every name is its stem followed by its suffix; a non-empty suffix is a
    dot followed by a non-empty run without dots, after a non-empty stem. *)
Lemma suffix_stem_spec name :
  (Pathlib.suffix name = "" ∧ Pathlib.stem name = name) ∨
  ∃ pre a e,
    pre ≠ "" ∧ PyStr.rfind "." (String a e) = -1 ∧
    name = pre +:+ String "." (String a e) ∧
    Pathlib.suffix name = String "." (String a e) ∧
    Pathlib.stem name = pre.
Proof.
  destruct ((0 <? PyStr.rfind "." name) &&
            (PyStr.rfind "." name <? PyStr.len name - 1)) eqn:Hc.
  2:{ left. unfold Pathlib.suffix, Pathlib.stem. by rewrite Hc. }
  right. apply andb_true_iff in Hc as [Hlo%Z.ltb_lt Hhi%Z.ltb_lt].
  destruct (rfind_split "." name) as (pre & e & -> & He & Hlen); [lia|].
  rewrite Hlen, len_append in Hhi. rewrite Hlen in Hlo.
  destruct e as [|a e].
  { unfold PyStr.len in Hhi. cbn [String.length] in Hhi. lia. }
  assert (pre ≠ "") by (intros ->; unfold PyStr.len in Hlo; simpl in Hlo; lia).
  exists pre, a, e. split_and!; [done..| |]; by apply suffix_stem_append.
Qed.

(** Two names with a suffix that get the same tagged name are the same. *)
Lemma tagged_name_inj n1 n2 :
  Pathlib.suffix n1 ≠ "" → Pathlib.suffix n2 ≠ "" →
  tagged_name n1 = tagged_name n2 → n1 = n2.
Proof.
  intros H1 H2. unfold tagged_name.
  destruct (suffix_stem_spec n1)
    as [[? _]|(p1 & a1 & e1 & _ & Hd1 & -> & -> & ->)]; [done|].
  destruct (suffix_stem_spec n2)
    as [[? _]|(p2 & a2 & e2 & _ & Hd2 & -> & -> & ->)]; [done|].
  intros Heq.
  assert (Hlen : PyStr.len (p1 +:+ "_tagged") = PyStr.len (p2 +:+ "_tagged")).
  { rewrite <- (rfind_append "." (p1 +:+ "_tagged") (String a1 e1) Hd1).
    rewrite <- (rfind_append "." (p2 +:+ "_tagged") (String a2 e2) Hd2).
    by rewrite !append_assoc, Heq. }
  rewrite !len_append in Hlen.
  apply append_inj_len in Heq as [-> Heq]; [|lia].
  by apply (inj (String.append "_tagged")) in Heq as ->.
Qed.

(** ** One video *)

Section batch_properties.

Variable applicator : string → string → pydict string → tag_result.
Variable move_denied : string → bool.
Variable move_leftover : string → option string.
Variable derive_title : string → string.

Local Abbreviation auto_title := (load_metadata_with_auto_title derive_title).
Local Abbreviation psv :=
  (process_single_video applicator move_denied move_leftover derive_title).
Local Abbreviation loop :=
  (process_loop applicator move_denied move_leftover derive_title).
Local Abbreviation batch :=
  (process_all_videos applicator move_denied move_leftover derive_title).
Local Abbreviation ok := (will_succeed applicator move_denied derive_title).

Ltac unfold_py :=
  unfold process_single_video, try_except, mbind, Py_bind, bind,
    SimpleVideoTagger, path_exists, json_load, write_metadata, shutil_move,
    print, mret, Py_ret, ret, raise, set_disk;
  simpl.

Ltac norm_py :=
  repeat (cbn; match goal with
               | H : ?m !! ?k = _ |- context [?m !! ?k] => rewrite H
               | H : applicator ?a ?b ?c = _ |- context [applicator ?a ?b ?c] =>
                   rewrite H
               | H : move_denied ?a = _ |- context [move_denied ?a] => rewrite H
               end);
  cbn.

(** Run the interpreter on a state whose relevant lookups are hypotheses. *)
Ltac run_py :=
  unfold_py;
  repeat (cbn; match goal with
               | H : ?x = _ |- context [?x] => rewrite H
               end);
  cbn.

(** The successful path of [process_single_video], as an equation. *)
Lemma psv_success w name mf inp proc out content template artifact :
  input_dir w = Some inp →
  inp !! name = Some (File content) →
  processed_dir w = Some proc →
  output_dir w = Some out →
  json_files w !! mf = Some (JsonObject template) →
  applicator name content (auto_title (Pathlib.stem name) template)
    = Tagged artifact →
  move_denied name = false →
  psv name mf w =
    (Return true,
     World (Some (delete name inp)) (Some (<[name := content]> proc))
           (Some (<[tagged_name name := artifact]> out)) (json_files w)
           (console w ++
              [EvProcessing name; EvAddingMetadata (tagged_name name);
               EvSuccess name;
               EvMetadataAdded (auto_title (Pathlib.stem name) template)])).
Proof.
  intros Hi Hn Hp Ho Hj Ha Hm. destruct w as [i p o j c]; simplify_eq/=.
  run_py. by rewrite <- !(assoc_L (++)).
Qed.

(** The path on which the tag applicator does not deliver. *)
Lemma psv_tag_failure w name mf inp out content template :
  input_dir w = Some inp →
  inp !! name = Some (File content) →
  output_dir w = Some out →
  json_files w !! mf = Some (JsonObject template) →
  (∀ a, applicator name content (auto_title (Pathlib.stem name) template)
          ≠ Tagged a) →
  ∃ log,
    psv name mf w =
      (Return false,
       World (input_dir w) (processed_dir w)
             (Some (match written (applicator name content
                              (auto_title (Pathlib.stem name) template)) with
                    | Some a => <[tagged_name name := a]> out
                    | None => out
                    end))
             (json_files w) (console w ++ EvProcessing name :: log)) ∧
    attempts log = [].
Proof.
  intros Hi Hn Ho Hj Ha. destruct w as [i p o j c]; simplify_eq/=.
  destruct (applicator _ _ _) as [a|l|l] eqn:E; [by destruct (Ha a)|..];
    run_py; eexists; (split; [by rewrite <- !(assoc_L (++))|done]).
Qed.

(** The path on which the metadata template cannot be loaded. *)
Lemma psv_no_template w name mf :
  is_Some (input_at w name) →
  json_files w !! mf = None ∨ json_files w !! mf = Some Malformed →
  psv name mf w =
    (Return false,
     World (input_dir w) (processed_dir w) (output_dir w) (json_files w)
           (console w ++
              [EvProcessing name;
               if decide (json_files w !! mf = None)
               then EvMetadataNotFound mf else EvError name])).
Proof.
  intros [n Hn] Hj. unfold input_at in Hn.
  destruct w as [i p o j c]; simplify_eq/=.
  destruct Hj as [Hj|Hj]; run_py; by rewrite <- !(assoc_L (++)).
Qed.

(** What one call of [process_single_video] does to the state, whatever the
    state: it never raises, it answers [True] exactly under [will_succeed],
    it reads the JSON files only, and it moves the original exactly when it
    answers [True]. *)
Lemma psv_spec w name mf :
  ∃ w',
    psv name mf w = (Return (ok name mf w), w') ∧
    json_files w' = json_files w ∧
    exists_dirs w' = exists_dirs w ∧
    attempts (console w') = attempts (console w) ++ [name] ∧
    (if ok name mf w then
       ∃ content,
         input_at w name = Some (File content) ∧
         input_at w' name = None ∧
         processed_at w' name = Some content ∧
         (∀ n, n ≠ name →
               input_at w' n = input_at w n ∧
               processed_at w' n = processed_at w n)
     else input_dir w' = input_dir w ∧
          (∀ n, n ≠ name → processed_at w' n = processed_at w n)) ∧
    (∀ n, is_Some (output_at w n) → is_Some (output_at w' n)) ∧
    (∀ n, n ≠ tagged_name name → output_at w' n = output_at w n) ∧
    (∀ content template a,
       input_at w name = Some (File content) →
       json_files w !! mf = Some (JsonObject template) →
       is_Some (output_dir w) →
       written (applicator name content
                  (auto_title (Pathlib.stem name) template)) = Some a →
       output_at w' (tagged_name name) = Some a).
Proof.
  destruct w as [i p o j c].
  unfold will_succeed, exists_dirs, input_at, processed_at, output_at.
  unfold_py. unfold attempts.
  destruct i as [inp|]; cbn;
    [destruct (inp !! name) as [[content|sub]|] eqn:Hn; cbn|];
    (destruct (j !! mf) as [[|template]|] eqn:Hj; norm_py);
    try (destruct o as [out|]; norm_py);
    try (destruct (applicator name content _) as [a|[a|]|[a|]] eqn:Ha; norm_py);
    try (destruct p as [proc|]; norm_py);
    try (destruct (move_denied name) eqn:Hm; norm_py);
    try (match goal with
         | |- context [move_leftover name] =>
             destruct (move_leftover name) as [copied|] eqn:Hl; norm_py
         end);
    eexists; (split; [reflexivity|]); cbn;
    rewrite ?omap_app; cbn; rewrite ?app_nil_r;
    (split_and!; [done|done|done|..]);
    try done;
    try (split; [done|intros n ?; by rewrite ?lookup_insert_ne by done]);
    try (intros n; destruct (decide (n = tagged_name name)) as [->|];
         rewrite ?lookup_insert_eq, ?lookup_insert_ne by done; by eauto);
    try (intros n ?; by rewrite lookup_insert_ne by done);
    try (intros ??? [=] [=] ?; subst; norm_py; rewrite ?lookup_insert_eq;
         congruence);
    try (by intros ??? [=]).
  exists content. rewrite lookup_delete_eq, !lookup_insert_eq.
  split_and!; [done..|]. intros n Hne.
  by rewrite lookup_delete_ne, lookup_insert_ne by done.
Qed.

(** ** Dictionaries *)

Lemma dict_get_set_eq {V} k (v : V) d : dict_get k (dict_set k v d) = Some v.
Proof.
  induction d as [|[k' v'] d IH]; simpl; repeat (case_decide; simpl); done.
Qed.

Lemma dict_get_set_ne {V} k k' (v : V) d :
  k ≠ k' → dict_get k' (dict_set k v d) = dict_get k' d.
Proof.
  intros Hne. induction d as [|[k0 v0] d IH]; simpl;
    repeat (case_decide; simpl); congruence.
Qed.

Lemma dict_set_fresh {V} k (v : V) d :
  dict_get k d = None → dict_set k v d = d ++ [(k, v)].
Proof.
  induction d as [|[k' v'] d IH]; simpl; [done|].
  case_decide; [done|]. intros Hd. by rewrite IH.
Qed.

Lemma dict_get_None {V} k (d : pydict V) : dict_get k d = None ↔ k ∉ d.*1.
Proof.
  induction d as [|[k' v'] d IH]; simpl.
  - split; [intros _; apply not_elem_of_nil|done].
  - rewrite not_elem_of_cons. case_decide; subst.
    + split; [done|]. by intros [? _].
    + rewrite IH. split; [done|]. by intros [_ ?].
Qed.

(** ** The loop *)

(** [will_succeed] for an item only looks at that item's source, the JSON
    files and the existence of the directories. *)
Lemma will_succeed_ext name mf w w' :
  input_at w' name = input_at w name →
  json_files w' = json_files w →
  exists_dirs w' = exists_dirs w →
  ok name mf w' = ok name mf w.
Proof.
  unfold will_succeed, exists_dirs. intros -> -> [= _ Hp Ho].
  destruct (input_at w name) as [[content|]|]; [|done..].
  destruct (json_files w !! mf) as [[|template]|]; [done| |done].
  destruct (processed_dir w), (processed_dir w'); try done;
    destruct (output_dir w), (output_dir w'); done.
Qed.

Lemma will_succeed_true name mf w :
  ok name mf w = true →
  ∃ content template a,
    input_at w name = Some (File content) ∧
    json_files w !! mf = Some (JsonObject template) ∧
    is_Some (processed_dir w) ∧ is_Some (output_dir w) ∧
    applicator name content (auto_title (Pathlib.stem name) template) = Tagged a ∧
    move_denied name = false.
Proof.
  unfold will_succeed.
  destruct (input_at w name) as [[content|]|]; [|done..].
  destruct (json_files w !! mf) as [[|template]|]; [done| |done].
  destruct (processed_dir w); [|done]. destruct (output_dir w); [|done].
  destruct (applicator _ _ _) as [a| |] eqn:Ha; [|done..].
  intros Hm%negb_true_iff. by eexists content, template, a.
Qed.

Lemma loop_spec mf vs :
  NoDup vs → ∀ acc s f w,
  (∀ n, n ∈ vs → dict_get n acc = None) →
  ∃ s' f' w',
    loop vs mf acc s f w =
      (Return (acc ++ ((λ n, (n, ok n mf w)) <$> vs), s', f'), w') ∧
    json_files w' = json_files w ∧
    exists_dirs w' = exists_dirs w ∧
    attempts (console w') = attempts (console w) ++ vs ∧
    (∀ n, n ∈ vs → ok n mf w = true →
       ∃ content,
         input_at w n = Some (File content) ∧
         input_at w' n = None ∧
         processed_at w' n = Some content) ∧
    (∀ n, n ∈ vs → ok n mf w = false → input_at w' n = input_at w n) ∧
    (∀ n, n ∉ vs →
       input_at w' n = input_at w n ∧ processed_at w' n = processed_at w n) ∧
    (∀ n, is_Some (output_at w n) → is_Some (output_at w' n)) ∧
    (∀ m, (∀ n, n ∈ vs → m ≠ tagged_name n) →
       output_at w' m = output_at w m) ∧
    ((∀ n1 n2, n1 ∈ vs → n2 ∈ vs → tagged_name n1 = tagged_name n2 → n1 = n2) →
     ∀ n content template a,
       n ∈ vs →
       input_at w n = Some (File content) →
       json_files w !! mf = Some (JsonObject template) →
       is_Some (output_dir w) →
       written (applicator n content
                  (auto_title (Pathlib.stem n) template)) = Some a →
       output_at w' (tagged_name n) = Some a).
Proof.
  induction 1 as [|x vs Hx Hnd IH]; intros acc s f w Hacc.
  { exists s, f, w. rewrite !app_nil_r.
    split_and!; try done; intros;
      by match goal with H : _ ∈ [] |- _ => apply elem_of_nil in H end. }
  destruct (psv_spec w x mf)
    as (w1 & Hrun & Hj1 & Hex1 & Hat1 & Hb & Hmono1 & Hout1 & Hart1).
  set (b := ok x mf w) in *.
  assert (Hacc1 : ∀ n, n ∈ vs → dict_get n (dict_set x b acc) = None).
  { intros n Hn. rewrite dict_get_set_ne by (intros ->; done).
    apply Hacc. by right. }
  assert (Hfr1 : ∀ n, n ≠ x →
            input_at w1 n = input_at w n ∧ processed_at w1 n = processed_at w n).
  { intros n Hn. destruct b.
    - destruct Hb as (c & _ & _ & _ & Hfr). by apply Hfr.
    - destruct Hb as [Hi Hp]. unfold input_at. rewrite Hi. by split; [|apply Hp]. }
  assert (Hok1 : ∀ n, n ∈ vs → ok n mf w1 = ok n mf w).
  { intros n Hn. apply will_succeed_ext; [|done..].
    apply Hfr1. by intros ->. }
  set (s1 := if b then S s else s). set (f1 := if b then f else S f).
  destruct (IH (dict_set x b acc) s1 f1 w1 Hacc1)
    as (s' & f' & w' & Hloop & Hj & Hex & Hat & Hok & Hko & Hfr & Hmono
        & Hout & Hart).
  exists s', f', w'. split_and!.
  - assert (Hres : dict_set x b acc ++ ((λ n, (n, ok n mf w1)) <$> vs)
                   = acc ++ ((λ n, (n, ok n mf w)) <$> (x :: vs))).
    2:{ rewrite <- Hres. simpl. unfold mbind, Py_bind, bind. rewrite Hrun.
        subst s1 f1. by destruct b. }
    rewrite dict_set_fresh, <- (assoc_L (++)) by (apply Hacc; by left).
    simpl. fold b. do 2 f_equal. apply list_fmap_ext. intros i n Hn.
    f_equal. apply Hok1. by eapply list_elem_of_lookup_2.
  - congruence.
  - congruence.
  - by rewrite Hat, Hat1, <- (assoc_L (++)).
  - intros n [->|Hn]%elem_of_cons Hres.
    + fold b in Hres. rewrite Hres in Hb.
      destruct Hb as (c & Hc & Hgone & Hproc & _).
      destruct (Hfr x Hx) as [Hi Hp]. exists c. by rewrite Hi, Hp.
    + rewrite <- (Hok1 n Hn) in Hres.
      destruct (Hok n Hn Hres) as (c & Hc & Hgone & Hproc).
      exists c. split_and!; try done.
      rewrite <- Hc. symmetry. apply Hfr1. by intros ->.
  - intros n [->|Hn]%elem_of_cons Hres.
    + fold b in Hres. rewrite Hres in Hb.
      destruct Hb as [Hi _]. destruct (Hfr x Hx) as [Hi' _].
      rewrite Hi'. unfold input_at. by rewrite Hi.
    + rewrite <- (Hok1 n Hn) in Hres.
      rewrite (Hko n Hn Hres). apply Hfr1. by intros ->.
  - intros n [Hnx Hn]%not_elem_of_cons.
    destruct (Hfr n Hn) as [-> ->]. by apply Hfr1.
  - intros n Hn. by apply Hmono, Hmono1.
  - intros m Hm. rewrite Hout by (intros n Hn; apply Hm; by right).
    apply Hout1, Hm. by left.
  - intros Hinj n content template a [->|Hn]%elem_of_cons Hc Ht Ho Hw.
    + rewrite Hout; [by apply (Hart1 content template a)|].
      intros n Hn Heq. apply Hx.
      rewrite (Hinj x n); [done|by left|by right|done].
    + assert (n ≠ x) as Hne by (by intros ->).
      apply (Hart (λ n1 n2 H1 H2, Hinj n1 n2 (list_elem_of_further _ _ _ H1)
                                    (list_elem_of_further _ _ _ H2))
               n content template a); try done.
      * by rewrite (proj1 (Hfr1 n Hne)).
      * congruence.
      * unfold exists_dirs in Hex1. injection Hex1 as _ _ Ho1.
        apply (bool_decide_unpack _). rewrite Ho1. by apply bool_decide_pack.
Qed.

(** ** The batch *)

Lemma print_failed_spec results w :
  ∃ w', print_failed results w = (Return (), w') ∧
        disk w' = disk w ∧
        attempts (console w') = attempts (console w) ∧
        load_errors (console w') = load_errors (console w).
Proof.
  revert w. induction results as [|[n b] results IH]; intros w.
  { by exists w. }
  simpl. unfold mbind, Py_bind, bind.
  destruct b; simpl.
  - apply IH.
  - destruct (IH (World (input_dir w) (processed_dir w) (output_dir w)
                        (json_files w) (console w ++ [EvFailedVideo n])))
      as (w' & Hrun & Hd & Ha & He).
    exists w'. split_and!; try done.
    + rewrite Ha. simpl. unfold attempts. rewrite omap_app. simpl.
      by rewrite app_nil_r.
    + rewrite He. simpl. unfold load_errors. rewrite omap_app. simpl.
      by rewrite app_nil_r.
Qed.

(** With nothing to process the batch stops after discovery. *)
Lemma batch_empty mf w d :
  input_dir w = Some d → video_files_of d = [] →
  batch mf w =
    (Return [],
     World (input_dir w) (processed_dir w) (output_dir w) (json_files w)
           (console w ++ [EvNoVideoFiles])).
Proof.
  intros Hd Hvs. unfold process_all_videos, mbind, Py_bind, bind.
  rewrite (get_video_files_some _ _ Hd), Hvs. done.
Qed.

(** Otherwise the batch is its loop, followed by console output only. *)
Lemma batch_nonempty mf w d res s f w1 :
  input_dir w = Some d → video_files_of d ≠ [] →
  loop (video_files_of d) mf [] 0%nat 0%nat
       (World (input_dir w) (processed_dir w) (output_dir w) (json_files w)
              (console w ++ [EvFound (video_files_of d)]))
    = (Return (res, s, f), w1) →
  ∃ w', batch mf w = (Return res, w') ∧
        disk w' = disk w1 ∧
        attempts (console w') = attempts (console w1) ∧
        load_errors (console w') = load_errors (console w1).
Proof.
  intros Hd Hvs Hloop. unfold process_all_videos, mbind, Py_bind, bind.
  rewrite (get_video_files_some _ _ Hd).
  rewrite bool_decide_eq_false_2 by done.
  unfold print at 1. rewrite Hloop.
  unfold truediv. destruct (decide (length (video_files_of d) = 0%nat)) as [Hz|_].
  { by apply nil_length_inv in Hz. }
  cbn.
  set (w2 := World _ _ _ _ _).
  assert (Hw2 : disk w2 = disk w1 ∧
                attempts (console w2) = attempts (console w1) ∧
                load_errors (console w2) = load_errors (console w1)).
  { subst w2. cbn. unfold attempts, load_errors.
    rewrite !omap_app. cbn. by rewrite !app_nil_r. }
  destruct Hw2 as (Hd2 & Ha2 & He2).
  destruct (decide (0 < f)%nat).
  - destruct (print_failed_spec res w2) as (w' & -> & Hd' & Ha' & He').
    exists w'. split_and!; [done|congruence..].
  - exists w2. cbn. done.
Qed.

Lemma batch_no_input mf w :
  input_dir w = None → batch mf w = (Raise FileNotFoundError, w).
Proof.
  intros Hd. unfold process_all_videos, mbind, Py_bind, bind.
  by rewrite (get_video_files_none _ Hd).
Qed.

Lemma dict_get_fmap {V} (g : string → V) (l : list string) n :
  dict_get n ((λ n, (n, g n)) <$> l) = if decide (n ∈ l) then Some (g n) else None.
Proof.
  induction l as [|x l IH]; cbn [fmap list_fmap dict_get].
  - destruct (decide (n ∈ [])) as [[]%elem_of_nil|]; done.
  - destruct (decide (x = n)) as [->|Hne].
    + destruct (decide (n ∈ n :: l)) as [|[]]; [done|by left].
    + rewrite IH. destruct (decide (n ∈ l)), (decide (n ∈ x :: l)) as [Hin|Hin];
        try done.
      * destruct Hin. by right.
      * apply elem_of_cons in Hin as [->|]; done.
Qed.

(** The batch on an existing input directory, in terms of the state it
    starts from. *)
Lemma batch_spec mf w d :
  input_dir w = Some d →
  ∃ w',
    batch mf w = (Return ((λ n, (n, ok n mf w)) <$> video_files_of d), w') ∧
    json_files w' = json_files w ∧
    exists_dirs w' = exists_dirs w ∧
    attempts (console w') = attempts (console w) ++ video_files_of d ∧
    (∀ n, n ∈ video_files_of d → ok n mf w = true →
       ∃ content,
         input_at w n = Some (File content) ∧
         input_at w' n = None ∧
         processed_at w' n = Some content) ∧
    (∀ n, n ∈ video_files_of d → ok n mf w = false →
       input_at w' n = input_at w n) ∧
    (∀ n, n ∉ video_files_of d →
       input_at w' n = input_at w n ∧ processed_at w' n = processed_at w n) ∧
    (∀ n, is_Some (output_at w n) → is_Some (output_at w' n)) ∧
    (∀ n content template a,
       n ∈ video_files_of d →
       input_at w n = Some (File content) →
       json_files w !! mf = Some (JsonObject template) →
       is_Some (output_dir w) →
       written (applicator n content
                  (auto_title (Pathlib.stem n) template)) = Some a →
       output_at w' (tagged_name n) = Some a).
Proof.
  intros Hd. destruct (decide (video_files_of d = [])) as [Hvs|Hvs].
  { eexists. rewrite (batch_empty mf w d Hd Hvs), Hvs, app_nil_r.
    split_and!; try done;
      try (intros;
           by match goal with H : _ ∈ [] |- _ => apply elem_of_nil in H end).
    unfold attempts. cbn. rewrite omap_app. cbn. by rewrite app_nil_r. }
  set (w0 := World (input_dir w) (processed_dir w) (output_dir w) (json_files w)
                   (console w ++ [EvFound (video_files_of d)])).
  destruct (loop_spec mf (video_files_of d) (NoDup_video_files_of d)
              [] 0%nat 0%nat w0)
    as (s' & f' & w1 & Hloop & Hj & Hex & Hat & Hok & Hko & Hfr & Hmono
        & _ & Hart).
  { done. }
  destruct (batch_nonempty mf w d _ s' f' w1 Hd Hvs Hloop)
    as (w' & Hrun & Hdisk & Hat' & _).
  unfold disk in Hdisk. injection Hdisk as Hi' Hp' Ho' Hj'.
  assert (Hia : ∀ n, input_at w' n = input_at w1 n)
    by (intros n; unfold input_at; by rewrite Hi').
  assert (Hpa : ∀ n, processed_at w' n = processed_at w1 n)
    by (intros n; unfold processed_at; by rewrite Hp').
  assert (Hoa : ∀ n, output_at w' n = output_at w1 n)
    by (intros n; unfold output_at; by rewrite Ho').
  exists w'. split_and!.
  - exact Hrun.
  - by rewrite Hj', Hj.
  - unfold exists_dirs in *. by rewrite Hi', Hp', Ho'.
  - rewrite Hat', Hat. unfold attempts. cbn. rewrite omap_app. cbn.
    by rewrite app_nil_r.
  - intros n Hn Hb. destruct (Hok n Hn Hb) as (c & ? & ? & ?).
    exists c. by rewrite Hia, Hpa.
  - intros n Hn Hb. rewrite Hia. by apply Hko.
  - intros n Hn. rewrite Hia, Hpa. by apply Hfr.
  - intros n Hn. unfold is_Some. rewrite Hoa. by apply Hmono.
  - intros n content template a Hn Hc Ht Ho Hw.
    rewrite Hoa. eapply Hart; [|done..].
    intros n1 n2 H1 H2. apply tagged_name_inj; by eapply video_suffix_nonempty.
Qed.

(** ** A template that cannot be loaded *)

Lemma loop_no_template mf vs :
  ∀ acc s f w res s' f' w',
  (∀ n, n ∈ vs → is_Some (input_at w n)) →
  json_files w !! mf = None ∨ json_files w !! mf = Some Malformed →
  loop vs mf acc s f w = (Return (res, s', f'), w') →
  disk w' = disk w ∧
  load_errors (console w') =
    load_errors (console w) ++
    ((λ n, if decide (json_files w !! mf = None)
           then EvMetadataNotFound mf else EvError n) <$> vs).
Proof.
  induction vs as [|x vs IH]; intros acc s f w res s' f' w' Hin Hj Hloop.
  { injection Hloop as <- <- <- <-. by rewrite app_nil_r. }
  simpl in Hloop. unfold mbind, Py_bind, bind in Hloop.
  rewrite psv_no_template in Hloop by (by (apply Hin; left) || done).
  apply IH in Hloop as [Hd He]; [| |done].
  - split; [done|]. rewrite He. cbn. unfold load_errors.
    rewrite omap_app, <- (assoc_L (++)). cbn.
    by destruct (decide (json_files w !! mf = None)).
  - intros n Hn. apply Hin. by right.
Qed.

(** C1, as the code has it.  When the metadata template file is missing or
    cannot be parsed, the batch raises nothing: every discovered item is
    attempted and recorded as a failure, the load error is reported once for
    each item, and Input, Processed, Output and the JSON files are left as
    they were. *)
Theorem batch_without_template (mf : string) (w : world) (d : gmap string node) :
  input_dir w = Some d →
  json_files w !! mf = None ∨ json_files w !! mf = Some Malformed →
  ∃ w',
    batch mf w = (Return ((λ n, (n, false)) <$> video_files_of d), w') ∧
    disk w' = disk w ∧
    attempts (console w') = attempts (console w) ++ video_files_of d ∧
    load_errors (console w') =
      load_errors (console w) ++
      ((λ n, if decide (json_files w !! mf = None)
             then EvMetadataNotFound mf else EvError n) <$> video_files_of d).
Proof.
  intros Hd Hj. destruct (decide (video_files_of d = [])) as [Hvs|Hvs].
  { eexists. rewrite (batch_empty mf w d Hd Hvs), Hvs.
    split_and!; try done; cbn; unfold attempts, load_errors;
      rewrite omap_app; cbn; by rewrite app_nil_r. }
  destruct (batch_spec mf w d Hd) as (w' & Hrun & _ & _ & Hat & _).
  assert (Hall : ∀ n, ok n mf w = false).
  { intros n. unfold will_succeed.
    destruct (input_at w n) as [[|]|]; try done.
    by destruct Hj as [-> | ->]. }
  exists w'. split_and!; [|   | done | ].
  - rewrite Hrun. do 2 f_equal. apply list_fmap_ext. intros _ n _.
    by rewrite Hall.
  - set (w0 := World (input_dir w) (processed_dir w) (output_dir w)
                     (json_files w) (console w ++ [EvFound (video_files_of d)])).
    destruct (loop_spec mf (video_files_of d) (NoDup_video_files_of d)
                [] 0%nat 0%nat w0) as (s' & f' & w1 & Hloop & _); [done|].
    destruct (batch_nonempty mf w d _ s' f' w1 Hd Hvs Hloop)
      as (w'' & Hrun' & Hdisk & _ & _).
    rewrite Hrun in Hrun'. injection Hrun' as <-.
    apply loop_no_template in Hloop as [Hd0 _]; [by rewrite Hdisk, Hd0| |done].
    intros n [[c Hc] _]%elem_of_video_files_of.
    unfold input_at. cbn. rewrite Hd. cbn. by rewrite Hc.
  - set (w0 := World (input_dir w) (processed_dir w) (output_dir w)
                     (json_files w) (console w ++ [EvFound (video_files_of d)])).
    destruct (loop_spec mf (video_files_of d) (NoDup_video_files_of d)
                [] 0%nat 0%nat w0) as (s' & f' & w1 & Hloop & _); [done|].
    destruct (batch_nonempty mf w d _ s' f' w1 Hd Hvs Hloop)
      as (w'' & Hrun' & _ & _ & Herr).
    rewrite Hrun in Hrun'. injection Hrun' as <-.
    apply loop_no_template in Hloop as [_ He]; [| |done].
    + rewrite Herr, He. cbn. unfold load_errors. rewrite omap_app. cbn.
      by rewrite app_nil_r.
    + intros n [[c Hc] _]%elem_of_video_files_of.
      unfold input_at. cbn. rewrite Hd. cbn. by rewrite Hc.
Qed.

(** ** Outcomes of a batch *)

Lemma count_all_success k vs :
  k ∉ vs →
  length (filter (λ p : string * bool, p.2 = false)
            ((λ n, (n, bool_decide (n ≠ k))) <$> vs)) = 0%nat ∧
  length (filter (λ p : string * bool, p.2 = true)
            ((λ n, (n, bool_decide (n ≠ k))) <$> vs)) = length vs.
Proof.
  induction vs as [|x vs IH]; [done|].
  intros [Hne Hk]%not_elem_of_cons. destruct (IH Hk) as [IHf IHt].
  cbn [fmap list_fmap]. rewrite !filter_cons. cbn [snd].
  rewrite bool_decide_eq_true_2 by done.
  rewrite decide_False, decide_True by done. cbn. by rewrite IHf, IHt.
Qed.

Lemma count_one_failure k vs :
  NoDup vs → k ∈ vs →
  length (filter (λ p : string * bool, p.2 = false)
            ((λ n, (n, bool_decide (n ≠ k))) <$> vs)) = 1%nat ∧
  length (filter (λ p : string * bool, p.2 = true)
            ((λ n, (n, bool_decide (n ≠ k))) <$> vs)) = (length vs - 1)%nat.
Proof.
  induction 1 as [|x vs Hx Hnd IH]; [by intros ?%elem_of_nil|].
  intros Hk. cbn [fmap list_fmap]. rewrite !filter_cons. cbn [snd].
  destruct (decide (x = k)) as [->|Hne].
  - destruct (count_all_success k vs Hx) as [Hf Ht].
    rewrite bool_decide_eq_false_2 by (by intros []).
    rewrite decide_True, decide_False by done. cbn. rewrite Hf, Ht. lia.
  - apply elem_of_cons in Hk as [->|Hk]; [done|].
    destruct (IH Hk) as [Hf Ht].
    rewrite bool_decide_eq_true_2 by done.
    rewrite decide_False, decide_True by done. cbn. rewrite Hf, Ht.
    apply list_elem_of_In, in_split in Hk as (l1 & l2 & ->).
    rewrite length_app. cbn. lia.
Qed.

(** C2. In a batch of N discovered items where the tag applicator fails on
    item k and every other item is tagged and moved, the batch runs to its
    end: the returned mapping has one entry per item, in discovery order,
    exactly one of them a failure, the one of item k, and N-1 successes; and
    every item, also those after k, was attempted. *)
Theorem partial_failure_isolation
    (mf : string) (w : world) (d : gmap string node)
    (template : pydict string) (k : string) :
  input_dir w = Some d →
  is_Some (processed_dir w) →
  is_Some (output_dir w) →
  json_files w !! mf = Some (JsonObject template) →
  k ∈ video_files_of d →
  (∀ content a, d !! k = Some (File content) →
     applicator k content (auto_title (Pathlib.stem k) template) ≠ Tagged a) →
  (∀ n content, n ∈ video_files_of d → n ≠ k → d !! n = Some (File content) →
     (∃ a, applicator n content (auto_title (Pathlib.stem n) template) = Tagged a)
     ∧ move_denied n = false) →
  ∃ results w',
    batch mf w = (Return results, w') ∧
    results.*1 = video_files_of d ∧
    dict_get k results = Some false ∧
    length (filter (λ p, p.2 = false) results) = 1%nat ∧
    length (filter (λ p, p.2 = true) results)
      = (length (video_files_of d) - 1)%nat ∧
    attempts (console w') = attempts (console w) ++ video_files_of d.
Proof.
  intros Hd [proc Hp] [out Ho] Hj Hk Hfail Hgood.
  destruct (batch_spec mf w d Hd) as (w' & Hrun & _ & _ & Hat & _).
  assert (Hok : ∀ n, n ∈ video_files_of d → ok n mf w = bool_decide (n ≠ k)).
  { intros n Hn. pose proof Hn as [[c Hc] _]%elem_of_video_files_of.
    unfold will_succeed, input_at. rewrite Hd. cbn. rewrite Hc, Hj, Hp, Ho.
    destruct (decide (n = k)) as [->|Hne].
    - rewrite bool_decide_eq_false_2 by (by intros []).
      destruct (applicator _ _ _) as [a| |] eqn:Ha; [|done..].
      by destruct (Hfail c a Hc).
    - rewrite bool_decide_eq_true_2 by done.
      destruct (Hgood n c Hn Hne Hc) as [[a ->] ->]. done. }
  assert (Hres : (λ n, (n, ok n mf w)) <$> video_files_of d
                 = (λ n, (n, bool_decide (n ≠ k))) <$> video_files_of d).
  { apply list_fmap_ext. intros i n Hn. f_equal.
    apply Hok. by eapply list_elem_of_lookup_2. }
  rewrite Hres in Hrun.
  destruct (count_one_failure k _ (NoDup_video_files_of d) Hk) as [Hf Ht].
  eexists _, w'. split_and!; [exact Hrun| |..|done|done|done].
  - rewrite <- list_fmap_compose. apply list_fmap_id.
  - rewrite dict_get_fmap, decide_True by done.
    by rewrite bool_decide_eq_false_2 by (by intros []).
Qed.

(** C5. An item for which the batch records success was a regular file of
    Input; after the batch it is gone from Input, Processed holds it with
    its bytes under its own name, and Output holds, under the name
    [<stem>_tagged<suffix>], the artefact the applicator made of it. *)
Theorem success_relocates
    (mf : string) (w w' : world) (results : pydict bool) (name : string) :
  batch mf w = (Return results, w') →
  dict_get name results = Some true →
  ∃ content template artifact,
    input_at w name = Some (File content) ∧
    json_files w !! mf = Some (JsonObject template) ∧
    applicator name content (auto_title (Pathlib.stem name) template)
      = Tagged artifact ∧
    input_at w' name = None ∧
    processed_at w' name = Some content ∧
    output_at w' (Pathlib.stem name +:+ "_tagged" +:+ Pathlib.suffix name)
      = Some artifact.
Proof.
  intros Hrun Hres. destruct (input_dir w) as [d|] eqn:Hd;
    [|by rewrite batch_no_input in Hrun].
  destruct (batch_spec mf w d Hd)
    as (w1 & Hrun1 & _ & _ & _ & Hok & _ & _ & _ & Hart).
  rewrite Hrun in Hrun1. injection Hrun1 as -> ->.
  rewrite dict_get_fmap in Hres. case_decide as Hn; [|done].
  injection Hres as Hb. destruct (Hok name Hn Hb) as (c & Hc & Hgone & Hproc).
  apply will_succeed_true in Hb as (c' & t & a & Hc' & Ht & _ & Ho & Ha & _).
  assert (c' = c) as -> by congruence.
  exists c, t, a. split_and!; try done.
  apply (Hart name c t a); try done. by rewrite Ha.
Qed.

(** C6. A discovered item on which the tag applicator fails, or whose move
    is refused or has no directory to go to after tagging, is recorded as a
    failure; after the batch its original is still in Input with its bytes;
    what the applicator wrote at the item's target path is in Output as
    written, and every file Output held before is still there. *)
Theorem failure_leaves_original
    (mf : string) (w w' : world) (d : gmap string node)
    (results : pydict bool) (template : pydict string)
    (name content : string) :
  input_dir w = Some d →
  is_Some (output_dir w) →
  json_files w !! mf = Some (JsonObject template) →
  name ∈ video_files_of d →
  d !! name = Some (File content) →
  (∀ a, applicator name content (auto_title (Pathlib.stem name) template)
          ≠ Tagged a)
  ∨ move_denied name = true
  ∨ processed_dir w = None →
  batch mf w = (Return results, w') →
  dict_get name results = Some false ∧
  input_at w' name = Some (File content) ∧
  (∀ a, written (applicator name content
                   (auto_title (Pathlib.stem name) template)) = Some a →
        output_at w'
          (Pathlib.stem name +:+ "_tagged" +:+ Pathlib.suffix name) = Some a) ∧
  (∀ n, is_Some (output_at w n) → is_Some (output_at w' n)).
Proof.
  intros Hd Ho Hj Hn Hc Hfail Hrun.
  destruct (batch_spec mf w d Hd)
    as (w1 & Hrun1 & _ & _ & _ & _ & Hko & _ & Hmono & Hart).
  rewrite Hrun in Hrun1. injection Hrun1 as -> ->.
  assert (Hin : input_at w name = Some (File content)).
  { unfold input_at. rewrite Hd. done. }
  assert (Hb : ok name mf w = false).
  { unfold will_succeed. rewrite Hin, Hj.
    destruct (processed_dir w) eqn:Hp; [|done]. destruct (output_dir w); [|done].
    destruct (applicator _ _ _) as [a| |] eqn:Ha; [|done..].
    destruct Hfail as [Hfail|[->|?]]; [by destruct (Hfail a)|done|done]. }
  split_and!.
  - by rewrite dict_get_fmap, decide_True, Hb by done.
  - by rewrite (Hko name Hn Hb).
  - intros a Ha. by apply (Hart name content template a).
  - exact Hmono.
Qed.

(** A run in which every item succeeded leaves nothing to discover. *)
Lemma rerun_finds_nothing mf w w' results :
  batch mf w = (Return results, w') →
  (∀ n, dict_get n results ≠ Some false) →
  ∃ d', input_dir w' = Some d' ∧ video_files_of d' = [].
Proof.
  intros Hrun Hall. destruct (input_dir w) as [d|] eqn:Hd;
    [|by rewrite batch_no_input in Hrun].
  destruct (batch_spec mf w d Hd)
    as (w1 & Hrun1 & _ & Hex & _ & Hok & _ & Hfr & _).
  rewrite Hrun in Hrun1. injection Hrun1 as -> <-.
  destruct (input_dir w') as [d'|] eqn:Hd'.
  2:{ unfold exists_dirs in Hex. rewrite Hd, Hd' in Hex. done. }
  exists d'. split; [done|]. apply elem_of_nil_inv.
  intros n [[c Hc] Hext]%elem_of_video_files_of.
  assert (Hin' : input_at w' n = Some (File c)).
  { unfold input_at. rewrite Hd'. done. }
  destruct (decide (n ∈ video_files_of d)) as [Hn|Hn].
  - destruct (ok n mf w) eqn:Hb.
    + destruct (Hok n Hn Hb) as (? & _ & Hgone & _). congruence.
    + apply (Hall n). by rewrite dict_get_fmap, decide_True, Hb.
  - destruct (Hfr n Hn) as [Hi _]. rewrite Hin' in Hi.
    apply Hn, elem_of_video_files_of. split; [|done]. exists c.
    unfold input_at in Hi. rewrite Hd in Hi. done.
Qed.

(** C8. On an input directory without any eligible file (an empty one in
    particular, or the one a run leaves behind in which every item
    succeeded) the batch attempts no item, returns the empty mapping and
    leaves the directories and the JSON files as they were. *)
Theorem batch_on_empty_input (mf : string) (w : world) :
  (∃ d, input_dir w = Some d ∧
        ∀ name content, d !! name = Some (File content) →
          PyStr.lower (Pathlib.suffix name) ∉ video_extensions)
  ∨ (∃ mf0 w0 results,
       batch mf0 w0 = (Return results, w) ∧
       ∀ n, dict_get n results ≠ Some false) →
  ∃ w',
    batch mf w = (Return [], w') ∧
    disk w' = disk w ∧
    attempts (console w') = attempts (console w).
Proof.
  intros Hempty.
  assert (∃ d, input_dir w = Some d ∧ video_files_of d = [])
    as (d & Hd & Hvs).
  { destruct Hempty as [(d & Hd & Hnone)|(mf0 & w0 & results & Hrun & Hall)].
    - exists d. split; [done|]. apply elem_of_nil_inv.
      intros n [[c Hc] Hext]%elem_of_video_files_of. by apply (Hnone n c).
    - by eapply rerun_finds_nothing. }
  eexists. rewrite (batch_empty mf w d Hd Hvs).
  split_and!; try done. cbn. unfold attempts. rewrite omap_app. cbn.
  by rewrite app_nil_r.
Qed.

(** C9. Whatever the state, [process_all_videos] does not end in a
    [ZeroDivisionError]: the success rate is computed only after the early
    return for an empty list of video files. *)
Theorem batch_never_divides_by_zero (mf : string) (w : world) :
  (batch mf w).1 ≠ Raise ZeroDivisionError.
Proof.
  destruct (input_dir w) as [d|] eqn:Hd.
  - destruct (batch_spec mf w d Hd) as (w' & -> & _). done.
  - by rewrite batch_no_input.
Qed.

End batch_properties.

(** ** The status report *)

Lemma status_some w d :
  input_dir w = Some d →
  show_directory_status w =
    (Return (),
     World (input_dir w) (processed_dir w) (output_dir w) (json_files w)
           (console w ++
              [EvInputStatus (length (video_files_of d)) (video_files_of d);
               EvProcessedStatus (length (processed_files w))
                 (take 5 (processed_files w)) (more (processed_files w));
               EvOutputStatus (length (output_files w))
                 (take 5 (output_files w)) (more (output_files w))])).
Proof.
  intros Hd. unfold show_directory_status, mbind, Py_bind, bind.
  rewrite (get_video_files_some _ _ Hd).
  unfold print, processed_files, output_files. cbn.
  by rewrite <- !(assoc_L (++)).
Qed.

Lemma status_none w :
  input_dir w = None → show_directory_status w = (Raise FileNotFoundError, w).
Proof.
  intros Hd. unfold show_directory_status, mbind, Py_bind, bind.
  by rewrite (get_video_files_none _ Hd).
Qed.

Lemma elem_of_glob dir ext name :
  name ∈ glob dir (star ext) ↔
  is_Some (dir ≫= (.!! name)) ∧ ∃ pre, name = pre +:+ ext.
Proof.
  unfold glob, star. destruct dir as [m|]; cbn.
  - rewrite list_elem_of_filter, <- fnmatch_star, Is_true_true.
    rewrite list_elem_of_fmap. split.
    + intros [? [[n x] [-> Hin%elem_of_map_to_list]]]. eauto.
    + intros [[x Hx] ?]. split; [done|]. exists (name, x).
      split; [done|]. by apply elem_of_map_to_list.
  - split; [by intros ?%elem_of_nil|]. by intros [[? [=]] _].
Qed.

Lemma elem_of_processed_files w name :
  name ∈ processed_files w ↔
  is_Some (processed_at w name) ∧
  ∃ pre ext, ext ∈ [".mp4"; ".avi"; ".mov"] ∧ name = pre +:+ ext.
Proof.
  unfold processed_files, processed_at.
  rewrite !elem_of_app, !elem_of_glob. split.
  - intros [[? [pre ->]]|[[? [pre ->]]|[? [pre ->]]]];
      (split; [done|]); eexists pre, _; (split; [|done]);
      repeat first [by left | right].
  - intros [? (pre & ext & Hext & ->)].
    rewrite !elem_of_cons, elem_of_nil in Hext.
    destruct Hext as [->|[->|[->|[]]]]; eauto 10.
Qed.

(** C3, as the code has it.  The status report changes nothing on disk.
    With an existing input directory it completes; a missing Processed or
    Output directory yields no files, and the report prints for it what it
    prints for an empty one.  With a missing input directory the report
    raises [FileNotFoundError]; the constructor creates the three
    directories beforehand. *)
Theorem status_is_a_pure_read :
  (∀ w, disk (show_directory_status w).2 = disk w) ∧
  (∀ d p o j c,
     (show_directory_status (World (Some d) p o j c)).1 = Return () ∧
     console (show_directory_status (World (Some d) p o j c)).2 =
     console (show_directory_status (World (Some d) (mkdir p) (mkdir o) j c)).2) ∧
  (∀ i o j c, processed_files (World i None o j c) = []) ∧
  (∀ i p j c, output_files (World i p None j c) = []) ∧
  (∀ p o j c,
     show_directory_status (World None p o j c)
       = (Raise FileNotFoundError, World None p o j c)) ∧
  (∀ w, (init w).1 = Return () ∧ exists_dirs (init w).2 = (true, true, true)).
Proof.
  split_and!.
  - intros w. destruct (input_dir w) as [d|] eqn:Hd.
    + by rewrite (status_some w d Hd).
    + by rewrite (status_none w Hd).
  - intros d p o j c.
    rewrite (status_some (World (Some d) p o j c) d eq_refl),
      (status_some (World (Some d) (mkdir p) (mkdir o) j c) d eq_refl).
    split; [done|]. by destruct p, o.
  - done.
  - done.
  - intros p o j c. by apply status_none.
  - intros w. split; [done|]. unfold init, exists_dirs, mkdir. cbn.
    by destruct (input_dir w), (processed_dir w), (output_dir w).
Qed.

(** C10. The status report counts and lists, for Processed, the names that
    end in [.mp4], [.avi] or [.mov] as written, and nothing else: a file of
    Processed whose suffix is one of the other five recognised extensions in
    any letter case, or contains an upper-case letter, is left out. *)
Theorem processed_report_lowercase_only
    (w : world) (d : gmap string node) (name : string) :
  input_dir w = Some d →
  is_Some (processed_at w name) →
  PyStr.lower (Pathlib.suffix name) ∈
    ({[ ".mkv"; ".wmv"; ".flv"; ".webm"; ".m4v" ]} : gset string)
  ∨ Pathlib.suffix name ≠ PyStr.lower (Pathlib.suffix name) →
  ∃ w' files,
    show_directory_status w = (Return (), w') ∧
    EvProcessedStatus (length files) (take 5 files) (more files) ∈ console w' ∧
    files = glob (processed_dir w) (star ".mp4") ++
            glob (processed_dir w) (star ".avi") ++
            glob (processed_dir w) (star ".mov") ∧
    (∀ n, n ∈ files ↔
          is_Some (processed_at w n) ∧
          ∃ pre ext, ext ∈ [".mp4"; ".avi"; ".mov"] ∧ n = pre +:+ ext) ∧
    name ∉ files.
Proof.
  intros Hd Hin Hext. eexists _, (processed_files w).
  split_and!; [by apply status_some| |done|apply elem_of_processed_files|].
  - cbn. rewrite elem_of_app. right. right. by left.
  - intros (_ & pre & ext & Hmem & ->)%elem_of_processed_files.
    assert (Hsuf : Pathlib.suffix (pre +:+ ext) = ext
                   ∨ Pathlib.suffix (pre +:+ ext) = "").
    { rewrite !elem_of_cons, elem_of_nil in Hmem.
      destruct Hmem as [->|[->|[->|[]]]];
        (apply suffix_of_match; [done|by exists pre]). }
    rewrite !elem_of_cons, elem_of_nil in Hmem.
    destruct Hsuf as [Hs|Hs]; rewrite Hs in Hext;
      destruct Hmem as [->|[->|[->|[]]]];
      (destruct Hext as [Hext|Hext]; [by vm_compute in Hext|done]).
Qed.

(** ** The properties at work on the small installation *)

Lemma get_video_files_spec_witness :
  input_dir Example.start = Some Example.input ∧
  ∃ video_files,
    get_video_files Example.start = (Return video_files, Example.start) ∧
    StronglySorted String.le video_files ∧
    NoDup video_files ∧
    (∀ name, name ∈ video_files ↔
       (∃ content, Example.input !! name = Some (File content)) ∧
       PyStr.lower (Pathlib.suffix name) ∈
         ({[ ".mp4"; ".avi"; ".mov"; ".mkv"; ".wmv"; ".flv"; ".webm"; ".m4v" ]}
            : gset string)) ∧
    ((∀ name content, Example.input !! name = Some (File content) →
        PyStr.lower (Pathlib.suffix name) ∉ video_extensions) →
     video_files = []).
Proof.
  split; [reflexivity|].
  apply (get_video_files_spec Example.start Example.input). reflexivity.
Defined.

(** Against C1 as the specification states it: without the template file the batch
    returns normally, after attempting every item, with one failure entry
    and one error report for each. *)
Lemma missing_template_fails_each_item :
  json_files Example.no_template !! "sample_metadata.json" = None ∧
  (Example.run Example.no_template).1 =
    Return [("a.mp4", false); ("b.mov", false); ("c.MKV", false)] ∧
  attempts (console (Example.run Example.no_template).2) =
    ["a.mp4"; "b.mov"; "c.MKV"] ∧
  load_errors (console (Example.run Example.no_template).2) =
    [EvMetadataNotFound "sample_metadata.json";
     EvMetadataNotFound "sample_metadata.json";
     EvMetadataNotFound "sample_metadata.json"].
Proof. by vm_compute. Qed.

Lemma batch_without_template_witness :
  ∃ w',
    Example.run Example.no_template =
      (Return ((λ n, (n, false)) <$> video_files_of Example.input), w') ∧
    disk w' = disk Example.no_template ∧
    attempts (console w') =
      attempts (console Example.no_template) ++ video_files_of Example.input ∧
    load_errors (console w') =
      load_errors (console Example.no_template) ++
      ((λ n, if decide (json_files Example.no_template
                          !! "sample_metadata.json" = None)
             then EvMetadataNotFound "sample_metadata.json" else EvError n)
         <$> video_files_of Example.input).
Proof.
  apply (batch_without_template Example.tagger Example.never_denied
           Example.nothing_left Example.title_of "sample_metadata.json"
           Example.no_template Example.input).
  - reflexivity.
  - left. reflexivity.
Defined.

Lemma partial_failure_isolation_witness :
  "b.mov" ∈ video_files_of Example.input ∧
  ∃ results w',
    Example.run Example.start = (Return results, w') ∧
    results.*1 = video_files_of Example.input ∧
    dict_get "b.mov" results = Some false ∧
    length (filter (λ p, p.2 = false) results) = 1%nat ∧
    length (filter (λ p, p.2 = true) results)
      = (length (video_files_of Example.input) - 1)%nat ∧
    attempts (console w') =
      attempts (console Example.start) ++ video_files_of Example.input.
Proof.
  assert (Hk : "b.mov" ∈ video_files_of Example.input).
  { apply (bool_decide_unpack _). vm_compute. exact I. }
  split; [exact Hk|].
  apply (partial_failure_isolation Example.tagger Example.never_denied
           Example.nothing_left Example.title_of "sample_metadata.json" Example.start
           Example.input Example.template "b.mov").
  - reflexivity.
  - eexists. reflexivity.
  - eexists. reflexivity.
  - reflexivity.
  - exact Hk.
  - intros content a _. vm_compute. discriminate.
  - intros n content _ Hne _. split; [|reflexivity].
    unfold Example.tagger. destruct (decide (n = "b.mov")); [done|].
    eexists. reflexivity.
Defined.

Lemma success_relocates_witness :
  dict_get "a.mp4" [("a.mp4", true); ("b.mov", false); ("c.MKV", true)]
    = Some true ∧
  ∃ content template artifact,
    input_at Example.start "a.mp4" = Some (File content) ∧
    json_files Example.start !! "sample_metadata.json"
      = Some (JsonObject template) ∧
    Example.tagger "a.mp4" content
      (load_metadata_with_auto_title Example.title_of (Pathlib.stem "a.mp4")
         template) = Tagged artifact ∧
    input_at (Example.run Example.start).2 "a.mp4" = None ∧
    processed_at (Example.run Example.start).2 "a.mp4" = Some content ∧
    output_at (Example.run Example.start).2
      (Pathlib.stem "a.mp4" +:+ "_tagged" +:+ Pathlib.suffix "a.mp4")
      = Some artifact.
Proof.
  split; [reflexivity|].
  apply (success_relocates Example.tagger Example.never_denied
           Example.nothing_left Example.title_of "sample_metadata.json" Example.start
           (Example.run Example.start).2
           [("a.mp4", true); ("b.mov", false); ("c.MKV", true)] "a.mp4").
  - vm_compute. reflexivity.
  - reflexivity.
Defined.

Lemma failure_leaves_original_witness :
  Example.input !! "b.mov" = Some (File "B") ∧
  dict_get "b.mov" [("a.mp4", true); ("b.mov", false); ("c.MKV", true)]
    = Some false ∧
  input_at (Example.run Example.start).2 "b.mov" = Some (File "B") ∧
  (∀ a, written (Example.tagger "b.mov" "B"
                   (load_metadata_with_auto_title Example.title_of
                      (Pathlib.stem "b.mov") Example.template)) = Some a →
        output_at (Example.run Example.start).2
          (Pathlib.stem "b.mov" +:+ "_tagged" +:+ Pathlib.suffix "b.mov")
          = Some a) ∧
  (∀ n, is_Some (output_at Example.start n) →
        is_Some (output_at (Example.run Example.start).2 n)).
Proof.
  split; [reflexivity|].
  apply (failure_leaves_original Example.tagger Example.never_denied
           Example.nothing_left Example.title_of "sample_metadata.json" Example.start
           (Example.run Example.start).2 Example.input
           [("a.mp4", true); ("b.mov", false); ("c.MKV", true)]
           Example.template "b.mov" "B").
  - reflexivity.
  - eexists. reflexivity.
  - reflexivity.
  - apply (bool_decide_unpack _). vm_compute. exact I.
  - reflexivity.
  - left. intros a. vm_compute. discriminate.
  - vm_compute. reflexivity.
Defined.

Lemma batch_on_empty_input_witness :
  input_dir Example.idle = Some {[ "notes.txt" := File "N" ]} ∧
  ∃ w',
    Example.run Example.idle = (Return [], w') ∧
    disk w' = disk Example.idle ∧
    attempts (console w') = attempts (console Example.idle).
Proof.
  split; [reflexivity|].
  apply (batch_on_empty_input Example.tagger Example.never_denied
           Example.nothing_left Example.title_of "sample_metadata.json" Example.idle).
  left. exists {[ "notes.txt" := File "N" ]}. split; [reflexivity|].
  intros name content [<- _]%lookup_singleton_Some.
  apply (bool_decide_unpack _). vm_compute. exact I.
Defined.

(** Against C3 as the specification states it: with the input directory gone the
    status report raises instead of reporting an empty directory. *)
Lemma status_fails_without_input :
  input_dir Example.no_input = None ∧
  show_directory_status Example.no_input
    = (Raise FileNotFoundError, Example.no_input).
Proof. by vm_compute. Qed.

Lemma processed_report_lowercase_only_witness :
  is_Some (processed_at Example.archive "c.MKV") ∧
  ∃ w' files,
    show_directory_status Example.archive = (Return (), w') ∧
    EvProcessedStatus (length files) (take 5 files) (more files) ∈ console w' ∧
    files = glob (processed_dir Example.archive) (star ".mp4") ++
            glob (processed_dir Example.archive) (star ".avi") ++
            glob (processed_dir Example.archive) (star ".mov") ∧
    (∀ n, n ∈ files ↔
          is_Some (processed_at Example.archive n) ∧
          ∃ pre ext, ext ∈ [".mp4"; ".avi"; ".mov"] ∧ n = pre +:+ ext) ∧
    "c.MKV" ∉ files.
Proof.
  assert (Hin : is_Some (processed_at Example.archive "c.MKV")).
  { eexists. vm_compute. reflexivity. }
  split; [exact Hin|].
  apply (processed_report_lowercase_only Example.archive ∅ "c.MKV").
  - reflexivity.
  - exact Hin.
  - left. apply (bool_decide_unpack _). vm_compute. exact I.
Defined.

(** * Further properties of the batch *)

Section further_properties.

Variable applicator : string → string → pydict string → tag_result.
Variable move_denied : string → bool.
Variable move_leftover : string → option string.
Variable derive_title : string → string.

Local Abbreviation auto_title := (load_metadata_with_auto_title derive_title).
Local Abbreviation psv :=
  (process_single_video applicator move_denied move_leftover derive_title).
Local Abbreviation loop :=
  (process_loop applicator move_denied move_leftover derive_title).
Local Abbreviation batch :=
  (process_all_videos applicator move_denied move_leftover derive_title).
Local Abbreviation ok := (will_succeed applicator move_denied derive_title).

Lemma will_succeed_intro name mf w content template a :
  input_at w name = Some (File content) →
  json_files w !! mf = Some (JsonObject template) →
  is_Some (processed_dir w) → is_Some (output_dir w) →
  applicator name content (auto_title (Pathlib.stem name) template) = Tagged a →
  move_denied name = false →
  ok name mf w = true.
Proof.
  intros Hc Ht [p Hp] [o Ho] Ha Hm. unfold will_succeed.
  by rewrite Hc, Ht, Hp, Ho, Ha, Hm.
Qed.

(** X1. When [process_single_video] answers [True], the source was a regular
    file of Input, the template file held a JSON object, the applicator
    delivered on the composed metadata and the move was not refused; and
    afterwards the original is in Processed with its bytes and no longer in
    Input, and the artefact is in Output under the tagged name. *)
Theorem process_single_video_true (w w' : world) (name mf : string) :
  psv name mf w = (Return true, w') →
  ∃ content template artifact,
    input_at w name = Some (File content) ∧
    json_files w !! mf = Some (JsonObject template) ∧
    applicator name content (auto_title (Pathlib.stem name) template)
      = Tagged artifact ∧
    move_denied name = false ∧
    input_at w' name = None ∧
    processed_at w' name = Some content ∧
    output_at w' (tagged_name name) = Some artifact.
Proof.
  intros Hrun.
  destruct (psv_spec applicator move_denied move_leftover derive_title w name mf)
    as (w0 & Hrun0 & _ & _ & _ & Hb & _ & _ & Hart).
  rewrite Hrun in Hrun0. injection Hrun0 as Hok <-.
  rewrite <- Hok in Hb. destruct Hb as (c & Hc & Hgone & Hproc & _).
  symmetry in Hok.
  apply will_succeed_true in Hok as (c' & t & a & Hc' & Ht & _ & Ho & Ha & Hm).
  rewrite Hc in Hc'. injection Hc' as <-.
  exists c, t, a. split_and!; try done.
  apply (Hart c t a); try done. by rewrite Ha.
Qed.

Ltac step_py :=
  repeat (cbn; match goal with
               | H : ?m !! ?k = _ |- context [?m !! ?k] => rewrite H
               | H : applicator ?a ?b ?c = _ |- context [applicator ?a ?b ?c] =>
                   rewrite H
               | H : move_denied ?a = _ |- context [move_denied ?a] => rewrite H
               end);
  cbn.

(** [process_single_video] prints no summary and no failed-video line. *)
Lemma psv_quiet w name mf :
  ∃ b w',
    psv name mf w = (Return b, w') ∧
    failed_listed (console w') = failed_listed (console w) ∧
    summaries (console w') = summaries (console w) ∧
    success_rates (console w') = success_rates (console w).
Proof.
  destruct w as [i p o j c].
  unfold process_single_video, try_except, mbind, Py_bind, bind,
    SimpleVideoTagger, path_exists, json_load, write_metadata, shutil_move,
    print, mret, Py_ret, ret, raise, set_disk.
  unfold failed_listed, summaries, success_rates.
  destruct i as [inp|]; cbn;
    [destruct (inp !! name) as [[content|sub]|] eqn:Hn; cbn|];
    (destruct (j !! mf) as [[|template]|] eqn:Hj; step_py);
    try (destruct o as [out|]; step_py);
    try (destruct (applicator name content _) as [a|[a|]|[a|]] eqn:Ha; step_py);
    try (destruct p as [proc|]; step_py);
    try (destruct (move_denied name) eqn:Hm; step_py);
    try (match goal with
         | |- context [move_leftover name] =>
             destruct (move_leftover name) as [copied|] eqn:Hl; step_py
         end);
    eexists _, _; (split; [reflexivity|]); cbn;
    rewrite ?omap_app; cbn; by rewrite ?app_nil_r.
Qed.

Lemma loop_quiet mf vs :
  ∀ acc s f w res s' f' w',
  loop vs mf acc s f w = (Return (res, s', f'), w') →
  failed_listed (console w') = failed_listed (console w) ∧
  summaries (console w') = summaries (console w) ∧
  success_rates (console w') = success_rates (console w).
Proof.
  induction vs as [|x vs IH]; intros acc s f w res s' f' w' Hloop.
  { by injection Hloop as <- <- <- <-. }
  destruct (psv_quiet w x mf) as (b & w1 & Hrun & Hf & Hs & Hr).
  simpl in Hloop. unfold mbind, Py_bind, bind in Hloop. rewrite Hrun in Hloop.
  rewrite <- Hf, <- Hs, <- Hr. destruct b; by eapply IH.
Qed.

(** The counters of the loop count the entries it appends. *)
Lemma loop_counters mf vs :
  NoDup vs → ∀ acc s f w res s' f' w',
  (∀ n, n ∈ vs → dict_get n acc = None) →
  loop vs mf acc s f w = (Return (res, s', f'), w') →
  ∃ new,
    res = acc ++ new ∧ new.*1 = vs ∧
    s' = (s + length (names_with true new))%nat ∧
    f' = (f + length (names_with false new))%nat.
Proof.
  induction 1 as [|x vs Hx Hnd IH]; intros acc s f w res s' f' w' Hacc Hloop.
  { injection Hloop as <- <- <- <-. exists []. rewrite app_nil_r.
    unfold names_with. cbn. split_and!; [done..|lia|lia]. }
  destruct (psv_quiet w x mf) as (b & w1 & Hrun & _).
  simpl in Hloop. unfold mbind, Py_bind, bind in Hloop. rewrite Hrun in Hloop.
  rewrite dict_set_fresh in Hloop by (apply Hacc; by left).
  assert (Hacc1 : ∀ n, n ∈ vs → dict_get n (acc ++ [(x, b)]) = None).
  { intros n Hn. rewrite <- (dict_set_fresh x b acc) by (apply Hacc; by left).
    rewrite dict_get_set_ne by (by intros ->). apply Hacc. by right. }
  assert (∃ new, res = (acc ++ [(x, b)]) ++ new ∧ new.*1 = vs ∧
            s' = ((if b then S s else s) + length (names_with true new))%nat ∧
            f' = ((if b then f else S f) + length (names_with false new))%nat)
    as (new & -> & Hkeys & -> & ->).
  { destruct b; by eapply IH. }
  exists ((x, b) :: new). rewrite <- (assoc_L (++)). split; [done|].
  split; [cbn; by rewrite Hkeys|].
  unfold names_with. rewrite !filter_cons. cbn [snd].
  destruct b; repeat case_decide; try done; cbn; lia.
Qed.

Lemma print_failed_run results w :
  print_failed results w =
    (Return (),
     World (input_dir w) (processed_dir w) (output_dir w) (json_files w)
           (console w ++ (EvFailedVideo <$> names_with false results))).
Proof.
  revert w. induction results as [|[n b] results IH]; intros w.
  { unfold names_with. cbn. rewrite app_nil_r. by destruct w. }
  cbn [print_failed]. unfold mbind, Py_bind, bind.
  unfold names_with. rewrite filter_cons. cbn [snd].
  destruct b; cbn.
  - rewrite IH. by rewrite decide_False by done.
  - rewrite IH. cbn. rewrite decide_True by done. cbn.
    by rewrite <- (assoc_L (++)).
Qed.

(** The batch on a non-empty discovery, from the state its loop ends in. *)
Lemma batch_run mf w d res s f w1 :
  input_dir w = Some d → video_files_of d ≠ [] →
  loop (video_files_of d) mf [] 0%nat 0%nat
       (World (input_dir w) (processed_dir w) (output_dir w) (json_files w)
              (console w ++ [EvFound (video_files_of d)]))
    = (Return (res, s, f), w1) →
  batch mf w =
    (Return res,
     World (input_dir w1) (processed_dir w1) (output_dir w1) (json_files w1)
           (console w1 ++
              [EvSummary (length (video_files_of d)) s f;
               EvSuccessRate
                 ((Z.of_nat s # Pos.of_nat (length (video_files_of d))) * 100)%Q]
              ++ (if decide (0 < f)%nat
                  then EvFailedVideo <$> names_with false res else []))).
Proof.
  intros Hd Hvs Hloop. unfold process_all_videos, mbind, Py_bind, bind.
  rewrite (get_video_files_some _ _ Hd).
  rewrite bool_decide_eq_false_2 by done.
  unfold print at 1. rewrite Hloop.
  unfold truediv. destruct (decide (length (video_files_of d) = 0%nat)) as [Hz|_].
  { by apply nil_length_inv in Hz. }
  cbn. destruct (decide (0 < f)%nat).
  - rewrite print_failed_run. cbn. by rewrite <- !(assoc_L (++)).
  - cbn. by rewrite <- ?(assoc_L (++)).
Qed.

(** ** Entries of a result mapping *)

Lemma elem_of_names_with b (res : list (string * bool)) n :
  n ∈ names_with b res ↔ (n, b) ∈ res.
Proof.
  unfold names_with. rewrite list_elem_of_fmap. split.
  - intros [[n' b'] [-> [Hb Hin]%list_elem_of_filter]]. cbn in *. by subst.
  - intros Hin. exists (n, b). split; [done|]. by apply list_elem_of_filter.
Qed.

Lemma names_with_sublist b (res : list (string * bool)) :
  names_with b res `sublist_of` res.*1.
Proof. unfold names_with. apply fmap_sublist, sublist_filter. Qed.

Lemma names_with_split (res : list (string * bool)) :
  (length (names_with true res) + length (names_with false res))%nat
    = length res.
Proof.
  unfold names_with. induction res as [|[n b] res IH]; [done|].
  rewrite !filter_cons. cbn [snd].
  destruct b; repeat case_decide; try done; cbn in *; lia.
Qed.

Lemma names_with_sorted b (res : list (string * bool)) :
  StronglySorted String.le res.*1 → StronglySorted String.le (names_with b res).
Proof.
  induction res as [|[n v] res IH]; [done|].
  cbn [fmap list_fmap fst]. intros [Hn Hs]%StronglySorted_cons.
  unfold names_with. rewrite filter_cons. cbn [snd].
  case_decide; [|by apply IH]. cbn [fmap list_fmap fst].
  apply StronglySorted_cons. split; [|by apply IH].
  apply Forall_forall. intros m Hm. rewrite Forall_forall in Hn. apply Hn.
  eapply elem_of_sublist; [exact Hm|apply names_with_sublist].
Qed.

Lemma elem_of_outcomes (g : string → bool) (vs : list string) n b :
  (n, b) ∈ (λ n, (n, g n)) <$> vs ↔ n ∈ vs ∧ g n = b.
Proof.
  rewrite list_elem_of_fmap. split.
  - by intros [m [[= -> ->] Hm]].
  - intros [Hn <-]. by exists n.
Qed.

Lemma outcomes_keys (g : string → bool) (vs : list string) :
  ((λ n, (n, g n)) <$> vs).*1 = vs.
Proof. rewrite <- list_fmap_compose. apply list_fmap_id. Qed.

(** ** What a batch returns and what it leaves alone *)

(** The state in which the loop starts, after the listing has been printed. *)
Lemma batch_loop mf w d :
  input_dir w = Some d → video_files_of d ≠ [] →
  ∃ s f w1 w',
    loop (video_files_of d) mf [] 0%nat 0%nat
         (World (input_dir w) (processed_dir w) (output_dir w) (json_files w)
                (console w ++ [EvFound (video_files_of d)]))
      = (Return ((λ n, (n, ok n mf w)) <$> video_files_of d, s, f), w1) ∧
    batch mf w = (Return ((λ n, (n, ok n mf w)) <$> video_files_of d), w') ∧
    disk w' = disk w1 ∧
    console w' =
      console w1 ++
      [EvSummary (length (video_files_of d)) s f;
       EvSuccessRate
         ((Z.of_nat s # Pos.of_nat (length (video_files_of d))) * 100)%Q]
      ++ (if decide (0 < f)%nat
          then EvFailedVideo
                 <$> names_with false ((λ n, (n, ok n mf w)) <$> video_files_of d)
          else []).
Proof.
  intros Hd Hvs.
  destruct (loop_spec applicator move_denied move_leftover derive_title mf
              (video_files_of d)
              (NoDup_video_files_of d) [] 0%nat 0%nat
              (World (input_dir w) (processed_dir w) (output_dir w)
                     (json_files w) (console w ++ [EvFound (video_files_of d)])))
    as (s & f & w1 & Hloop & _); [done|].
  cbn [app] in Hloop.
  eexists s, f, w1, _. split; [exact Hloop|].
  split; [by apply (batch_run mf w d _ s f w1)|]. done.
Qed.

(** X2. A batch that returns has found the input directory: the mapping it
    returns has one entry for each discovered video, in discovery order,
    each video was attempted once in that order, and neither the JSON files
    nor the existence of the three directories changed. *)
Theorem batch_results_complete
    (mf : string) (w w' : world) (results : pydict bool) :
  batch mf w = (Return results, w') →
  ∃ d,
    input_dir w = Some d ∧
    results.*1 = video_files_of d ∧
    attempts (console w') = attempts (console w) ++ video_files_of d ∧
    json_files w' = json_files w ∧
    exists_dirs w' = exists_dirs w.
Proof.
  intros Hrun. destruct (input_dir w) as [d|] eqn:Hd;
    [|by rewrite batch_no_input in Hrun].
  destruct (batch_spec applicator move_denied move_leftover derive_title mf w d Hd)
    as (w0 & Hrun0 & Hj & Hex & Hat & _).
  rewrite Hrun in Hrun0. injection Hrun0 as -> <-.
  exists d. by rewrite outcomes_keys.
Qed.

(** X3. After a batch, for every name: if the batch recorded success for
    it, the regular file of that name has gone from Input to Processed with
    its bytes; if it did not, Input holds under that name what it held
    before; and if the name is not in the mapping at all, Processed holds
    under it what it held before.  (An item recorded as failed can have a
    copy in Processed, left by a move that was refused after copying.) *)
Theorem batch_moves_or_keeps
    (mf : string) (w w' : world) (results : pydict bool) :
  batch mf w = (Return results, w') →
  ∀ n,
    (dict_get n results = Some true →
     ∃ content,
       input_at w n = Some (File content) ∧
       input_at w' n = None ∧
       processed_at w' n = Some content) ∧
    (dict_get n results ≠ Some true → input_at w' n = input_at w n) ∧
    (dict_get n results = None → processed_at w' n = processed_at w n).
Proof.
  intros Hrun n. destruct (input_dir w) as [d|] eqn:Hd;
    [|by rewrite batch_no_input in Hrun].
  destruct (batch_spec applicator move_denied move_leftover derive_title mf w d Hd)
    as (w0 & Hrun0 & _ & _ & _ & Hok & Hko & Hfr & _).
  rewrite Hrun in Hrun0. injection Hrun0 as -> <-.
  rewrite dict_get_fmap. destruct (decide (n ∈ video_files_of d)) as [Hn|Hn].
  - destruct (ok n mf w) eqn:Hb.
    + split_and!; [intros _; by apply Hok|done|done].
    + split_and!; [done|intros _; by apply Hko|done].
  - split_and!; [done|intros _; by apply Hfr|intros _; by apply Hfr].
Qed.

(** X4. The batch writes into Output only under the tagged names of the
    discovered videos: under every other name Output holds afterwards what
    it held before. *)
Theorem batch_writes_only_tagged_names
    (mf : string) (w w' : world) (results : pydict bool) (m : string) :
  batch mf w = (Return results, w') →
  (∀ n, n ∈ results.*1 → m ≠ tagged_name n) →
  output_at w' m = output_at w m.
Proof.
  intros Hrun Hm. destruct (input_dir w) as [d|] eqn:Hd;
    [|by rewrite batch_no_input in Hrun].
  destruct (decide (video_files_of d = [])) as [Hvs|Hvs].
  { rewrite (batch_empty _ _ _ _ mf w d Hd Hvs) in Hrun. by injection Hrun as <- <-. }
  destruct (loop_spec applicator move_denied move_leftover derive_title mf
              (video_files_of d)
              (NoDup_video_files_of d) [] 0%nat 0%nat
              (World (input_dir w) (processed_dir w) (output_dir w)
                     (json_files w) (console w ++ [EvFound (video_files_of d)])))
    as (s & f & w1 & Hloop & _ & _ & _ & _ & _ & _ & _ & Hout & _); [done|].
  cbn [app] in Hloop.
  pose proof (batch_run mf w d _ s f w1 Hd Hvs Hloop) as Hrun1.
  rewrite Hrun in Hrun1. injection Hrun1 as -> ->.
  rewrite outcomes_keys in Hm. apply (Hout m Hm).
Qed.

(** ** The run summary *)

Lemma observe_failed_lines (l : list string) :
  failed_listed (EvFailedVideo <$> l) = l ∧
  summaries (EvFailedVideo <$> l) = [] ∧
  success_rates (EvFailedVideo <$> l) = [].
Proof.
  unfold failed_listed, summaries, success_rates.
  induction l as [|x l (IH1 & IH2 & IH3)]; [done|]. cbn. by rewrite IH1, IH2, IH3.
Qed.

(** X5. A batch that discovered at least one video prints one summary: its
    total is the number of entries of the returned mapping and its two
    counters are the numbers of [True] and of [False] entries, which add up
    to the total.  A batch that discovered nothing prints no summary. *)
Theorem summary_counts (mf : string) (w w' : world) (results : pydict bool) :
  batch mf w = (Return results, w') →
  summaries (console w') =
    summaries (console w) ++
    match results with
    | [] => []
    | _ :: _ => [(length results, length (names_with true results),
                  length (names_with false results))]
    end ∧
  (length (names_with true results) + length (names_with false results))%nat
    = length results.
Proof.
  intros Hrun. split; [|apply names_with_split].
  destruct (input_dir w) as [d|] eqn:Hd;
    [|by rewrite batch_no_input in Hrun].
  destruct (decide (video_files_of d = [])) as [Hvs|Hvs].
  { rewrite (batch_empty _ _ _ _ mf w d Hd Hvs) in Hrun. injection Hrun as <- <-.
    cbn. unfold summaries. rewrite omap_app. done. }
  destruct (batch_loop mf w d Hd Hvs)
    as (s & f & w1 & w2 & Hloop & Hrun2 & _ & Hcon).
  rewrite Hrun in Hrun2. injection Hrun2 as -> <-.
  destruct (loop_quiet mf _ _ _ _ _ _ _ _ _ Hloop) as (_ & Hsum & _).
  destruct (loop_counters mf _ (NoDup_video_files_of d) [] _ _ _ _ _ _ _
              (λ _ _, eq_refl) Hloop) as (new & Hnew & _ & Hs & Hf).
  cbn [app] in Hnew. rewrite <- Hnew in Hs, Hf.
  set (results := (λ n, (n, ok n mf w)) <$> video_files_of d) in *.
  assert (Hlen : length results = length (video_files_of d))
    by (subst results; by rewrite length_fmap).
  destruct (observe_failed_lines (names_with false results)) as (_ & Hfs & _).
  assert (Hsum' : summaries (console w1) = summaries (console w)).
  { rewrite Hsum. cbn. unfold summaries. rewrite omap_app. cbn.
    by rewrite app_nil_r. }
  assert (Hts : summaries (if decide (0 < f)%nat
                           then EvFailedVideo <$> names_with false results
                           else []) = []).
  { by destruct (decide (0 < f)%nat). }
  assert (Hcons : ∃ r rs, results = r :: rs).
  { subst results. destruct (video_files_of d) as [|x l]; [done|].
    by eexists _, _. }
  destruct Hcons as (r & rs & Hres).
  rewrite Hcon. unfold summaries in *. rewrite !omap_app, Hsum', Hts.
  f_equal. cbn. rewrite <- Hlen. cbn in Hs, Hf. rewrite Hs, Hf.
  by rewrite Hres.
Qed.

(** X6. The names a batch prints under ["Failed videos:"] are the keys of
    the [False] entries of the mapping it returns, in the order of the
    mapping, and nothing is printed there when no item failed. *)
Theorem failed_videos_listed
    (mf : string) (w w' : world) (results : pydict bool) :
  batch mf w = (Return results, w') →
  failed_listed (console w') = failed_listed (console w) ++ names_with false results.
Proof.
  intros Hrun. destruct (input_dir w) as [d|] eqn:Hd;
    [|by rewrite batch_no_input in Hrun].
  destruct (decide (video_files_of d = [])) as [Hvs|Hvs].
  { rewrite (batch_empty _ _ _ _ mf w d Hd Hvs) in Hrun. injection Hrun as <- <-.
    cbn. unfold failed_listed. rewrite omap_app. cbn. by rewrite !app_nil_r. }
  destruct (batch_loop mf w d Hd Hvs)
    as (s & f & w1 & w2 & Hloop & Hrun2 & _ & Hcon).
  rewrite Hrun in Hrun2. injection Hrun2 as -> <-.
  destruct (loop_quiet mf _ _ _ _ _ _ _ _ _ Hloop) as (Hfl & _ & _).
  destruct (loop_counters mf _ (NoDup_video_files_of d) [] _ _ _ _ _ _ _
              (λ _ _, eq_refl) Hloop) as (new & Hnew & _ & _ & Hf).
  cbn [app] in Hnew. rewrite <- Hnew in Hf.
  set (results := (λ n, (n, ok n mf w)) <$> video_files_of d) in *.
  destruct (observe_failed_lines (names_with false results)) as (Hfs & _ & _).
  assert (Hfl' : failed_listed (console w1) = failed_listed (console w)).
  { rewrite Hfl. cbn. unfold failed_listed. rewrite omap_app. cbn.
    by rewrite app_nil_r. }
  assert (Htail : failed_listed (if decide (0 < f)%nat
                                 then EvFailedVideo <$> names_with false results
                                 else []) = names_with false results).
  { destruct (decide (0 < f)%nat); [done|].
    destruct (names_with false results); [done|cbn in Hf; lia]. }
  rewrite Hcon. unfold failed_listed in *. rewrite !omap_app, Hfl', Htail.
  done.
Qed.

(** X7. What a batch leaves to discover is what it failed on: right after
    it, discovery returns the keys of the [False] entries of the mapping, in
    the same order. *)
Theorem rerun_discovers_failures
    (mf : string) (w w' : world) (results : pydict bool) :
  batch mf w = (Return results, w') →
  get_video_files w' = (Return (names_with false results), w').
Proof.
  intros Hrun. destruct (input_dir w) as [d|] eqn:Hd;
    [|by rewrite batch_no_input in Hrun].
  destruct (batch_spec applicator move_denied move_leftover derive_title mf w d Hd)
    as (w0 & Hrun0 & _ & Hex & _ & Hok & Hko & Hfr & _).
  rewrite Hrun in Hrun0. injection Hrun0 as -> <-.
  destruct (input_dir w') as [d'|] eqn:Hd'.
  2:{ unfold exists_dirs in Hex. rewrite Hd, Hd' in Hex. done. }
  rewrite (get_video_files_some w' d' Hd'). do 2 f_equal.
  apply (StronglySorted_unique String.le).
  - apply sorted_video_files_of.
  - apply names_with_sorted. rewrite outcomes_keys. apply sorted_video_files_of.
  - apply NoDup_Permutation.
    + apply NoDup_video_files_of.
    + eapply sublist_NoDup; [|apply names_with_sublist].
      rewrite outcomes_keys. apply NoDup_video_files_of.
    + intros n. rewrite elem_of_names_with, elem_of_outcomes.
      rewrite !elem_of_video_files_of.
      assert (Hat : ∀ m, input_at w m = d !! m)
        by (intros m; unfold input_at; by rewrite Hd).
      assert (Hat' : ∀ m, input_at w' m = d' !! m)
        by (intros m; unfold input_at; by rewrite Hd').
      split.
      * intros [[c Hc] Hext].
        destruct (decide (n ∈ video_files_of d)) as [Hn|Hn].
        -- destruct (ok n mf w) eqn:Hb.
           ++ destruct (Hok n Hn Hb) as (? & _ & Hgone & _). congruence.
           ++ split; [|done]. by apply elem_of_video_files_of.
        -- destruct (Hfr n Hn) as [Hi _]. destruct Hn.
           apply elem_of_video_files_of. split; [|done]. exists c. congruence.
      * intros [[[c Hc] Hext] Hb]. split; [|done]. exists c.
        rewrite <- Hat', (Hko n) by (by try apply elem_of_video_files_of; eauto).
        by rewrite Hat.
Qed.

(** ** Artefacts and the output listing *)





(** The tagged name of a name with a suffix: the suffix is kept and
    [_tagged] goes in front of it. *)
Lemma tagged_name_shape n :
  Pathlib.suffix n ≠ "" →
  Pathlib.suffix (tagged_name n) = Pathlib.suffix n ∧
  Pathlib.stem (tagged_name n) = Pathlib.stem n +:+ "_tagged" ∧
  ∃ post, tagged_name n = Pathlib.stem n +:+ "_tagged." +:+ post.
Proof.
  intros Hs. unfold tagged_name.
  destruct (suffix_stem_spec n)
    as [[? _]|(pre & a & e & Hpre & Hd & -> & -> & ->)]; [done|].
  rewrite <- append_assoc.
  destruct (suffix_stem_append (pre +:+ "_tagged") a e) as [-> ->]; [|done|].
  { destruct pre; [done|]. by rewrite append_cons. }
  split_and!; [done..|]. exists (String a e). by rewrite append_assoc.
Qed.


End further_properties.

(** ** Names *)







(** X10. Names with a recognised extension keep it in their tagged name,
    which is the stem with [_tagged] appended, and two such names with the
    same tagged name are the same name: distinct videos never share an
    artefact. *)
Theorem tagged_names_distinct (n1 n2 : string) :
  PyStr.lower (Pathlib.suffix n1) ∈ video_extensions →
  PyStr.lower (Pathlib.suffix n2) ∈ video_extensions →
  Pathlib.suffix (tagged_name n1) = Pathlib.suffix n1 ∧
  Pathlib.stem (tagged_name n1) = Pathlib.stem n1 +:+ "_tagged" ∧
  (tagged_name n1 = tagged_name n2 → n1 = n2).
Proof.
  intros H1 H2.
  assert (Hs : ∀ n, PyStr.lower (Pathlib.suffix n) ∈ video_extensions →
                    Pathlib.suffix n ≠ "").
  { intros n Hn Hempty. rewrite Hempty in Hn. by vm_compute in Hn. }
  destruct (tagged_name_shape n1 (Hs n1 H1)) as (Hsuf & Hstem & _).
  split_and!; [done..|]. apply tagged_name_inj; by apply Hs.
Qed.


(** ** The command line *)

Section main_properties.

Variable applicator : string → string → pydict string → tag_result.
Variable move_denied : string → bool.
Variable move_leftover : string → option string.
Variable derive_title : string → string.

Local Abbreviation cli :=
  (main applicator move_denied move_leftover derive_title).
Local Abbreviation batch :=
  (process_all_videos applicator move_denied move_leftover derive_title).

(** The constructor creates what is missing, or fails on the first missing
    directory whose path is blocked. *)
Lemma constructor_cases ob w :
  (∃ i p o,
     BatchVideoTagger ob w =
       (Return (), World (Some i) (Some p) (Some o) (json_files w) (console w)) ∧
     ¬ ((input_dir w = None ∧ input_blocked ob = true) ∨
        (processed_dir w = None ∧ processed_blocked ob = true) ∨
        (output_dir w = None ∧ output_blocked ob = true)))
  ∨ (∃ w', BatchVideoTagger ob w = (Raise OSError, w') ∧
           console w' = console w ∧
           ((input_dir w = None ∧ input_blocked ob = true) ∨
            (processed_dir w = None ∧ processed_blocked ob = true) ∨
            (output_dir w = None ∧ output_blocked ob = true))).
Proof.
  destruct w as [i p o j c], ob as [bi bp bo].
  unfold BatchVideoTagger, mkdir_exist_ok, set_disk. cbn.
  destruct i as [i|], bi, p as [p|], bp, o as [o|], bo; cbn;
    first [ left; eexists _, _, _; split; [reflexivity|]; by intros [[? ?]|[[? ?]|[? ?]]]
          | right; eexists; split; [reflexivity|]; split; [done|]; tauto ].
Qed.

(** X12. When one of the three directories is missing and cannot be
    created, [main] ends with exit code 1 whatever the arguments: no item is
    attempted, the JSON files are as before and so is every entry of Input,
    Processed and Output. *)
Theorem main_fails_when_blocked (ob : obstacles) (a : args) (w : world) :
  (input_dir w = None ∧ input_blocked ob = true) ∨
  (processed_dir w = None ∧ processed_blocked ob = true) ∨
  (output_dir w = None ∧ output_blocked ob = true) →
  exit_code (cli ob a w).1 = 1 ∧
  attempts (console (cli ob a w).2) = attempts (console w) ∧
  json_files (cli ob a w).2 = json_files w ∧
  ∀ n, input_at (cli ob a w).2 n = input_at w n ∧
       processed_at (cli ob a w).2 n = processed_at w n ∧
       output_at (cli ob a w).2 n = output_at w n.
Proof.
  intros Hblocked. unfold main, mbind, Py_bind, bind.
  destruct (constructor_cases ob w)
    as [(i & p & o & _ & Hfree)|(w' & Hrun & Hc & _)]; [done|].
  rewrite Hrun. cbn. rewrite Hc. split_and!; [done|done|..].
  - clear Hblocked Hc. destruct w as [i p o j c], ob as [bi bp bo].
    unfold BatchVideoTagger, mkdir_exist_ok, set_disk in Hrun. cbn in Hrun.
    destruct i, bi, p, bp, o, bo; simplify_eq/=; done.
  - intros n. clear Hblocked Hc. destruct w as [i p o j c], ob as [bi bp bo].
    unfold BatchVideoTagger, mkdir_exist_ok, set_disk in Hrun. cbn in Hrun.
    unfold input_at, processed_at, output_at.
    destruct i, bi, p, bp, o, bo; simplify_eq/=;
      rewrite ?lookup_empty; done.
Qed.

(** X13. With [--status], or without [--process-all], [main] processes
    nothing: no item is attempted and the disk is left as the constructor
    left it, also when [--process-all] is given beside [--status]; the hint
    is printed only when neither flag is given. *)
Theorem main_reports_only (ob : obstacles) (a : args) (w : world) :
  status a = true ∨ process_all a = false →
  disk (cli ob a w).2 = disk (BatchVideoTagger ob w).2 ∧
  attempts (console (cli ob a w).2) = attempts (console w) ∧
  (∀ hint, (cli ob a w).1 = Finished hint → hint = negb (status a)).
Proof.
  intros Hmode. unfold main, mbind, Py_bind, bind.
  destruct (constructor_cases ob w)
    as [(i & p & o & -> & _)|(w' & -> & Hc & _)].
  2:{ cbn. by rewrite Hc. }
  set (w1 := World (Some i) (Some p) (Some o) (json_files w) (console w)) in *.
  assert (Hat : ∀ l, attempts (console w1 ++ l) = attempts (console w) ++ attempts l).
  { intros l. unfold attempts. by rewrite omap_app. }
  destruct (status a) eqn:Hs.
  - rewrite (status_some w1 i eq_refl). cbn.
    split_and!; [done| |by intros ? [= <-]].
    by rewrite (Hat [_; _; _]), app_nil_r.
  - destruct Hmode as [? | ->]; [done|].
    rewrite (status_some w1 i eq_refl). cbn.
    split_and!; [done| |by intros ? [= <-]].
    by rewrite (Hat [_; _; _]), app_nil_r.
Qed.

End main_properties.

(** ** The further properties at work on the small installation *)

Lemma process_single_video_true_witness :
  ∃ content template artifact,
    input_at Example.start "a.mp4" = Some (File content) ∧
    json_files Example.start !! "sample_metadata.json"
      = Some (JsonObject template) ∧
    Example.tagger "a.mp4" content
      (load_metadata_with_auto_title Example.title_of (Pathlib.stem "a.mp4")
         template) = Tagged artifact ∧
    Example.never_denied "a.mp4" = false ∧
    input_at
      (process_single_video Example.tagger Example.never_denied
         Example.nothing_left Example.title_of "a.mp4"
         "sample_metadata.json" Example.start).2 "a.mp4" = None ∧
    processed_at
      (process_single_video Example.tagger Example.never_denied
         Example.nothing_left Example.title_of "a.mp4"
         "sample_metadata.json" Example.start).2 "a.mp4" = Some content ∧
    output_at
      (process_single_video Example.tagger Example.never_denied
         Example.nothing_left Example.title_of "a.mp4"
         "sample_metadata.json" Example.start).2 (tagged_name "a.mp4")
      = Some artifact.
Proof.
  apply (process_single_video_true Example.tagger Example.never_denied
           Example.nothing_left Example.title_of Example.start _ "a.mp4"
           "sample_metadata.json").
  vm_compute. reflexivity.
Defined.

Lemma batch_results_complete_witness :
  ∃ d,
    input_dir Example.start = Some d ∧
    [("a.mp4", true); ("b.mov", false); ("c.MKV", true)].*1
      = video_files_of d ∧
    attempts (console (Example.run Example.start).2) =
      attempts (console Example.start) ++ video_files_of d ∧
    json_files (Example.run Example.start).2 = json_files Example.start ∧
    exists_dirs (Example.run Example.start).2 = exists_dirs Example.start.
Proof.
  apply (batch_results_complete Example.tagger Example.never_denied
           Example.nothing_left Example.title_of "sample_metadata.json"
           Example.start (Example.run Example.start).2
           [("a.mp4", true); ("b.mov", false); ("c.MKV", true)]).
  vm_compute. reflexivity.
Defined.

(** The move of [c.MKV] is refused after the copy: [a.mp4] is moved,
    [c.MKV] stays in Input although Processed holds a copy, and nothing
    appears in Processed under [notes.txt]. *)
Lemma batch_moves_or_keeps_witness :
  (∃ content,
     input_at Example.start "a.mp4" = Some (File content) ∧
     input_at
       (process_all_videos Example.tagger Example.refuses_c Example.copy_of_c
          Example.title_of "sample_metadata.json" Example.start).2 "a.mp4"
       = None ∧
     processed_at
       (process_all_videos Example.tagger Example.refuses_c Example.copy_of_c
          Example.title_of "sample_metadata.json" Example.start).2 "a.mp4"
       = Some content) ∧
  input_at
    (process_all_videos Example.tagger Example.refuses_c Example.copy_of_c
       Example.title_of "sample_metadata.json" Example.start).2 "c.MKV"
    = input_at Example.start "c.MKV" ∧
  processed_at
    (process_all_videos Example.tagger Example.refuses_c Example.copy_of_c
       Example.title_of "sample_metadata.json" Example.start).2 "c.MKV"
    = Some "C" ∧
  processed_at
    (process_all_videos Example.tagger Example.refuses_c Example.copy_of_c
       Example.title_of "sample_metadata.json" Example.start).2 "notes.txt"
    = processed_at Example.start "notes.txt".
Proof.
  pose proof
    (batch_moves_or_keeps Example.tagger Example.refuses_c Example.copy_of_c
       Example.title_of "sample_metadata.json" Example.start
       (process_all_videos Example.tagger Example.refuses_c Example.copy_of_c
          Example.title_of "sample_metadata.json" Example.start).2
       [("a.mp4", true); ("b.mov", false); ("c.MKV", false)]) as Hbatch.
  assert (Hrun :
    process_all_videos Example.tagger Example.refuses_c Example.copy_of_c
      Example.title_of "sample_metadata.json" Example.start
    = (Return [("a.mp4", true); ("b.mov", false); ("c.MKV", false)],
       (process_all_videos Example.tagger Example.refuses_c Example.copy_of_c
          Example.title_of "sample_metadata.json" Example.start).2))
    by (vm_compute; reflexivity).
  split_and!.
  - apply (Hbatch Hrun "a.mp4"). reflexivity.
  - apply (Hbatch Hrun "c.MKV"). discriminate.
  - reflexivity.
  - apply (Hbatch Hrun "notes.txt"). reflexivity.
Defined.

(** Output already holds a note and the artefact of an earlier run; the
    batch leaves both as they are. *)
Lemma batch_writes_only_tagged_names_witness :
  output_at Example.stocked "z_tagged.mp4" = Some "Z+" ∧
  output_at (Example.run Example.stocked).2 "z_tagged.mp4"
    = output_at Example.stocked "z_tagged.mp4".
Proof.
  split; [reflexivity|].
  apply (batch_writes_only_tagged_names Example.tagger Example.never_denied
           Example.nothing_left Example.title_of "sample_metadata.json"
           Example.stocked (Example.run Example.stocked).2
           [("a.mp4", true); ("b.mov", false); ("c.MKV", true)]
           "z_tagged.mp4").
  - vm_compute. reflexivity.
  - intros n Hn. cbn in Hn. rewrite !elem_of_cons, elem_of_nil in Hn.
    destruct Hn as [->|[->|[->|[]]]]; vm_compute; discriminate.
Defined.

Lemma summary_counts_witness :
  summaries (console (Example.run Example.start).2) =
    summaries (console Example.start) ++ [(3, 2, 1)%nat] ∧
  (2 + 1)%nat = 3%nat.
Proof.
  apply (summary_counts Example.tagger Example.never_denied
           Example.nothing_left Example.title_of "sample_metadata.json"
           Example.start (Example.run Example.start).2
           [("a.mp4", true); ("b.mov", false); ("c.MKV", true)]).
  vm_compute. reflexivity.
Defined.

Lemma failed_videos_listed_witness :
  failed_listed (console (Example.run Example.start).2) =
    failed_listed (console Example.start)
    ++ names_with false [("a.mp4", true); ("b.mov", false); ("c.MKV", true)].
Proof.
  apply (failed_videos_listed Example.tagger Example.never_denied
           Example.nothing_left Example.title_of "sample_metadata.json" Example.start
           (Example.run Example.start).2
           [("a.mp4", true); ("b.mov", false); ("c.MKV", true)]).
  vm_compute. reflexivity.
Defined.

Lemma rerun_discovers_failures_witness :
  get_video_files (Example.run Example.start).2 =
    (Return (names_with false
               [("a.mp4", true); ("b.mov", false); ("c.MKV", true)]),
     (Example.run Example.start).2).
Proof.
  apply (rerun_discovers_failures Example.tagger Example.never_denied
           Example.nothing_left Example.title_of "sample_metadata.json" Example.start
           (Example.run Example.start).2
           [("a.mp4", true); ("b.mov", false); ("c.MKV", true)]).
  vm_compute. reflexivity.
Defined.



Lemma tagged_names_distinct_witness :
  Pathlib.suffix (tagged_name "a.mp4") = Pathlib.suffix "a.mp4" ∧
  Pathlib.stem (tagged_name "a.mp4") = Pathlib.stem "a.mp4" +:+ "_tagged" ∧
  (tagged_name "a.mp4" = tagged_name "a.MP4" → "a.mp4" = "a.MP4").
Proof.
  apply (tagged_names_distinct "a.mp4" "a.MP4").
  - apply (bool_decide_unpack _). vm_compute. exact I.
  - apply (bool_decide_unpack _). vm_compute. exact I.
Defined.


Lemma main_reports_only_witness :
  status (Args true true "sample_metadata.json") = true ∧
  disk (main Example.tagger Example.never_denied Example.nothing_left
          Example.title_of
          (Obstacles false false false)
          (Args true true "sample_metadata.json") Example.start).2
    = disk (BatchVideoTagger (Obstacles false false false) Example.start).2 ∧
  attempts (console (main Example.tagger Example.never_denied Example.nothing_left
          Example.title_of
                       (Obstacles false false false)
                       (Args true true "sample_metadata.json")
                       Example.start).2)
    = attempts (console Example.start) ∧
  (∀ hint,
     (main Example.tagger Example.never_denied Example.nothing_left
          Example.title_of
        (Obstacles false false false)
        (Args true true "sample_metadata.json") Example.start).1
       = Finished hint →
     hint = negb (status (Args true true "sample_metadata.json"))).
Proof.
  split; [reflexivity|].
  apply (main_reports_only Example.tagger Example.never_denied
           Example.nothing_left Example.title_of (Obstacles false false false)
           (Args true true "sample_metadata.json") Example.start).
  left. reflexivity.
Defined.

(** Input is missing and a regular file of its name is in the way. *)
Lemma main_fails_when_blocked_witness :
  exit_code
    (main Example.tagger Example.never_denied
       Example.nothing_left Example.title_of (Obstacles true false false)
       (Args true false "sample_metadata.json") Example.no_input).1 = 1 ∧
  attempts
    (console
       (main Example.tagger Example.never_denied
          Example.nothing_left Example.title_of (Obstacles true false false)
          (Args true false "sample_metadata.json") Example.no_input).2)
    = attempts (console Example.no_input) ∧
  json_files
    (main Example.tagger Example.never_denied
       Example.nothing_left Example.title_of (Obstacles true false false)
       (Args true false "sample_metadata.json") Example.no_input).2
    = json_files Example.no_input ∧
  ∀ n,
    input_at
      (main Example.tagger Example.never_denied
         Example.nothing_left Example.title_of (Obstacles true false false)
         (Args true false "sample_metadata.json") Example.no_input).2 n
      = input_at Example.no_input n ∧
    processed_at
      (main Example.tagger Example.never_denied
         Example.nothing_left Example.title_of (Obstacles true false false)
         (Args true false "sample_metadata.json") Example.no_input).2 n
      = processed_at Example.no_input n ∧
    output_at
      (main Example.tagger Example.never_denied
         Example.nothing_left Example.title_of (Obstacles true false false)
         (Args true false "sample_metadata.json") Example.no_input).2 n
      = output_at Example.no_input n.
Proof.
  apply (main_fails_when_blocked Example.tagger Example.never_denied
           Example.nothing_left Example.title_of (Obstacles true false false)
           (Args true false "sample_metadata.json") Example.no_input).
  left. split; reflexivity.
Defined.
